(** * GOES heat flux: verification of the nearest-station search, the latent
      heat flux retrieval and the grid alignment helpers

    Shallow embedding of
      - [asos_data_reader.py]   : [distance], [asos_find]
      - [vdtn/obs/ameriflux/reader.py] : [distance], [site_finder], [csv_reader]
      - [phys/qe.py]            : [rho], [q], [lhf]
      - [phys/sd.py]            : [s_d] (quality masking of the extracted window)
      - [grid/smap.py]          : [main] (square truncation of the axes)

    Numbers.  The numerical code runs on numpy [float64] scalars (the driver of
    [qe.py] feeds [lhf] with elements of numpy arrays).  Such a scalar is
    modelled by [fl]: a real number or one of the IEEE special values
    [+inf], [-inf], [nan].  Arithmetic on finite values is exact (rounding,
    overflow and the sign of zero are not modelled); the special values follow
    IEEE 754 as numpy implements it: a division by zero does not raise, it
    yields an infinity or [nan]. *)

From Stdlib Require Import Reals Lra Lia List String Ascii ZArith Bool Sorted.
From Stdlib Require Import SpecFloat.
Import ListNotations.

Open Scope R_scope.

(* ================================================================== *)
(** ** numpy float64 scalars *)
(* ================================================================== *)

Module NpFloat.

Inductive fl : Type :=
| Fin (x : R)
| PInf
| NInf
| NaN.

Definition isnan (a : fl) : bool :=
  match a with NaN => true | _ => false end.

Definition isfinite (a : fl) : bool :=
  match a with Fin _ => true | _ => false end.

(** An infinity with the sign of [x] times the sign given by [pos];
    [nan] when [x] is zero. *)
Definition signed_inf (pos : bool) (x : R) : fl :=
  if Req_EM_T x 0 then NaN
  else if Rlt_dec 0 x then (if pos then PInf else NInf)
  else (if pos then NInf else PInf).

Definition neg (a : fl) : fl :=
  match a with
  | Fin x => Fin (- x)
  | PInf => NInf
  | NInf => PInf
  | NaN => NaN
  end.

Definition add (a b : fl) : fl :=
  match a, b with
  | NaN, _ | _, NaN => NaN
  | Fin x, Fin y => Fin (x + y)
  | PInf, NInf | NInf, PInf => NaN
  | PInf, _ | _, PInf => PInf
  | NInf, _ | _, NInf => NInf
  end.

Definition sub (a b : fl) : fl := add a (neg b).

Definition mul (a b : fl) : fl :=
  match a, b with
  | NaN, _ | _, NaN => NaN
  | Fin x, Fin y => Fin (x * y)
  | Fin x, PInf | PInf, Fin x => signed_inf true x
  | Fin x, NInf | NInf, Fin x => signed_inf false x
  | PInf, PInf | NInf, NInf => PInf
  | PInf, NInf | NInf, PInf => NInf
  end.

(** numpy division: [x / 0] is [nan] for [x = 0] and an infinity with the
    sign of [x] otherwise (a warning is signalled, nothing is raised). *)
Definition div (a b : fl) : fl :=
  match a, b with
  | NaN, _ | _, NaN => NaN
  | Fin x, Fin y => if Req_EM_T y 0 then signed_inf true x else Fin (x / y)
  | Fin _, PInf | Fin _, NInf => Fin 0
  | PInf, Fin y => if Rlt_dec y 0 then NInf else PInf
  | NInf, Fin y => if Rlt_dec y 0 then PInf else NInf
  | _, _ => NaN
  end.

(** [a < b]; every comparison with [nan] is false. *)
Definition ltb (a b : fl) : bool :=
  match a, b with
  | NaN, _ | _, NaN => false
  | Fin x, Fin y => if Rlt_dec x y then true else false
  | NInf, NInf | PInf, _ => false
  | NInf, _ => true
  | Fin _, PInf => true
  | Fin _, NInf => false
  end.

Definition np_cos (a : fl) : fl :=
  match a with Fin x => Fin (cos x) | _ => NaN end.

Definition np_sqrt (a : fl) : fl :=
  match a with
  | Fin x => if Rlt_dec x 0 then NaN else Fin (sqrt x)
  | PInf => PInf
  | _ => NaN
  end.

Definition np_arcsin (a : fl) : fl :=
  match a with
  | Fin x => if Rle_dec (-1) x then (if Rle_dec x 1 then Fin (asin x) else NaN) else NaN
  | _ => NaN
  end.

Definition np_exp (a : fl) : fl :=
  match a with
  | Fin x => Fin (exp x)
  | PInf => PInf
  | NInf => Fin 0
  | NaN => NaN
  end.

Definition np_tanh (a : fl) : fl :=
  match a with
  | Fin x => Fin (tanh x)
  | PInf => Fin 1
  | NInf => Fin (-1)
  | NaN => NaN
  end.

(** [x ** y] for a finite exponent [y]. *)
Definition np_power (a : fl) (y : R) : fl :=
  if Req_EM_T y 0 then Fin 1
  else
    let is_int := if Req_EM_T (frac_part y) 0 then true else false in
    let is_odd := is_int && Z.odd (Int_part y) in
    let pos := if Rlt_dec 0 y then true else false in
    match a with
    | NaN => NaN
    | Fin x =>
        if Rlt_dec 0 x then Fin (Rpower x y)
        else if Req_EM_T x 0 then (if pos then Fin 0 else PInf)
        else if is_int then Fin (powerRZ x (Int_part y))
        else NaN
    | PInf => if pos then PInf else Fin 0
    | NInf => if pos then (if is_odd then NInf else PInf) else Fin 0
    end.

(** [np.nanmax] over the flattened elements of its argument: the largest
    element that is not [nan]; [nan] when every element is [nan]. *)
Definition nanmax2 (acc x : fl) : fl :=
  match acc, x with
  | NaN, _ => x
  | _, NaN => acc
  | _, _ => if ltb acc x then x else acc
  end.

Definition nanmax (xs : list fl) : fl := fold_left nanmax2 xs NaN.

(** The real number held by a finite value. *)
Definition fin_val (a : fl) : R :=
  match a with Fin x => x | _ => 0 end.

End NpFloat.

Import NpFloat.

Declare Scope fl_scope.
Delimit Scope fl_scope with fl.
Bind Scope fl_scope with fl.
Infix "+" := add : fl_scope.
Infix "-" := sub : fl_scope.
Infix "*" := mul : fl_scope.
Infix "/" := div : fl_scope.
Infix "<?" := ltb : fl_scope.
Infix "**" := np_power (at level 30, right associativity) : fl_scope.
Coercion Fin : R >-> fl.

(* ================================================================== *)
(** ** Python outcomes: a call returns a value or raises *)
(* ================================================================== *)

Inductive exn : Type :=
| IndexError
| KeyError
| ValueError.

Inductive outcome (A : Type) : Type :=
| Returns (a : A)
| Raises (e : exn).

Arguments Returns {A} a.
Arguments Raises {A} e.

Definition bind {A B : Type} (m : outcome A) (k : A -> outcome B) : outcome B :=
  match m with
  | Returns a => k a
  | Raises e => Raises e
  end.

Notation "x <- m ;; k" := (bind m (fun x => k))
  (at level 61, m at next level, right associativity).

(** [l[i]] for a non-negative index. *)
Definition py_index {A : Type} (l : list A) (i : nat) : outcome A :=
  match nth_error l i with
  | Some a => Returns a
  | None => Raises IndexError
  end.

(** [for i in idx: s = body(s, i)] *)
Fixpoint for_each {S : Type} (body : S -> nat -> outcome S)
         (idx : list nat) (s : S) : outcome S :=
  match idx with
  | [] => Returns s
  | i :: rest => s' <- body s i ;; for_each body rest s'
  end.

(** [range(a, b)] *)
Definition py_range (a b : nat) : list nat := seq a (b - a).

(* ================================================================== *)
(** ** GeoResolver: [distance], [asos_find], [site_finder] *)
(* ================================================================== *)

Module Geo.

(** GRS80 semi-major axis of Earth. *)
Definition R_earth : fl := Fin 6378137.

Definition np_pi : fl := Fin PI.

(** [distance(lat_loc, lon_loc, lat_asos, lon_asos)]; the two readers carry
    the same function. *)
Definition distance (lat_loc lon_loc lat_asos lon_asos : fl) : fl :=
  let p := (np_pi / 180)%fl in
  let a := (0.5 - np_cos ((lat_asos - lat_loc) * p) / 2
            + np_cos (lat_loc * p) * np_cos (lat_asos * p)
              * (1 - np_cos ((lon_asos - lon_loc) * p)) / 2)%fl in
  (2 * R_earth * np_arcsin (np_sqrt a))%fl.

(** The station table as the finders hold it after reading: three lists.
    For [asos_find] they are the [CALL], [LAT] and [LON] columns once the
    row labelled 0 has been dropped; for [site_finder] the [Site],
    [Latitude] and [Longitude] columns. *)
Record table : Type := Table {
  stations : list string;
  lat_asos : list fl;
  lon_asos : list fl
}.

(** Loop state: the running minimum [dists] and the running answer
    [station]. *)
Definition scan_state : Type := (fl * string)%type.

(** Initial condition: [dists = 2*np.pi*R], [station = '']. *)
Definition scan_init : scan_state := ((2 * np_pi * R_earth)%fl, EmptyString).

Section Scan.

(** What is stored for a selected row: ['K' + stations[i]] in
    [asos_find], [stations[i]] in [site_finder]. *)
Variable label : string -> string.
Variables lat_loc lon_loc : fl.
Variable t : table.

Definition scan_body (st : scan_state) (i : nat) : outcome scan_state :=
  la <- py_index (lat_asos t) i ;;
  lo <- py_index (lon_asos t) i ;;
  let dist := distance lat_loc lon_loc la lo in
  if (dist <? fst st)%fl
  then (c <- py_index (stations t) i ;; Returns (dist, label c))
  else Returns st.

(** [for i in range(1, len(lat_asos)): ...] followed by [return station]. *)
Definition scan : outcome string :=
  st <- for_each scan_body (py_range 1 (List.length (lat_asos t))) scan_init ;;
  Returns (snd st).

End Scan.

Definition asos_find (lat_loc lon_loc : fl) (t : table) : outcome string :=
  scan (fun c => String "K" c) lat_loc lon_loc t.

Definition site_finder (lat_crd lon_crd : fl) (t : table) : outcome string :=
  scan (fun c => c) lat_crd lon_crd t.

(** A candidate list, and the table that holds it. *)
Record candidate : Type := Candidate {
  code : string;
  lat : fl;
  lon : fl
}.

Definition table_of (cs : list candidate) : table :=
  Table (map code cs) (map lat cs) (map lon cs).

Definition dist_to (lat_loc lon_loc : fl) (c : candidate) : fl :=
  distance lat_loc lon_loc (lat c) (lon c).

(** One turn of the loop, on a candidate rather than on an index. *)
Definition pick (label : string -> string) (lat_loc lon_loc : fl)
           (st : scan_state) (c : candidate) : scan_state :=
  if (dist_to lat_loc lon_loc c <? fst st)%fl
  then (dist_to lat_loc lon_loc c, label (code c))
  else st.

(** Degrees to radians, the haversine term [a] and the distance, as real
    numbers. *)
Definition deg : R := PI / 180.

Definition hav (la1 lo1 la2 lo2 : R) : R :=
  0.5 - cos ((la2 - la1) * deg) / 2
  + cos (la1 * deg) * cos (la2 * deg) * (1 - cos ((lo2 - lo1) * deg)) / 2.

Definition gc_dist (la1 lo1 la2 lo2 : R) : R :=
  2 * 6378137 * asin (sqrt (hav la1 lo1 la2 lo2)).

(** Candidates with finite coordinates, and their distance to a finite
    query as a real number. *)
Definition finite_cand (c : candidate) : bool :=
  isfinite (lat c) && isfinite (lon c).

Definition rdist (qa qo : R) (c : candidate) : R :=
  gc_dist qa qo (fin_val (lat c)) (fin_val (lon c)).

(** The running answer of [asos_find] is empty or K followed by the code
    of a row at an index the loop visits. *)
Definition prefixed_code (t : table) (s : string) : Prop :=
  s = EmptyString
  \/ exists (i : nat) (c : string),
      (1 <= i)%nat /\ nth_error (stations t) i = Some c /\ s = String "K" c.

(** Two stations on the equator: [A] at (0, 0), [B] at its antipode. *)
Definition station_A : candidate := Candidate "A" (Fin 0) (Fin 0).
Definition station_B : candidate := Candidate "B" (Fin 0) (Fin 180).

(** A table that lists both the code JFK and the code KJFK. *)
Definition station_first : candidate := Candidate "ALB" (Fin 0) (Fin 180).
Definition station_JFK : candidate := Candidate "JFK" (Fin 0) (Fin 0).
Definition station_KJFK : candidate := Candidate "KJFK" (Fin 0) (Fin 180).

(** The station file as [pd.read_fwf] returns it, one row per line,
    labelled 0, 1, ...: [.drop([0])] removes the row labelled 0, the
    line of dashes under the header, and raises [KeyError] when the file
    has no row. *)
Definition drop_row_0 (rows : list candidate) : outcome (list candidate) :=
  match rows with
  | [] => Raises KeyError
  | _ :: rest => Returns rest
  end.

(** [asos_find] from the rows of the station file: lines 61-78. *)
Definition asos_find_file (lat_loc lon_loc : fl) (rows : list candidate)
  : outcome string :=
  adf <- drop_row_0 rows ;;
  asos_find lat_loc lon_loc (table_of adf).

End Geo.

(* ================================================================== *)
(** ** HumidityModel, ResistanceNetwork, FluxModel: [phys/qe.py] *)
(* ================================================================== *)

Module Qe.

(** Gas constant (J K^-1 kg^-1) *)
Definition R_gas : fl := Fin 287.05.
(** Latent heat of vaporization (J kg^-1) *)
Definition L_v : fl := Fin 2.5e6.
(** Reference vapor pressure (hPa) *)
Definition e_0 : fl := Fin 6.113.

(** [rho(T_air, p_air)] *)
Definition rho (T_air p_air : fl) : fl :=
  (p_air * 100 / (R_gas * T_air))%fl.

(** The vapor pressure both humidities of [q] start from, for a
    temperature in Celsius: [e_0*np.exp((17.67*T)/(T + 243.5))]. *)
Definition vapor_pressure (T_c : fl) : fl :=
  (e_0 * np_exp ((17.67 * T_c) / (T_c + 243.5)))%fl.

(** [q(T_air, T_dew, p_air)] returns [(q_a, q_s)]. *)
Definition q (T_air T_dew p_air : fl) : fl * fl :=
  let T_air := (T_air - 273.15)%fl in
  let T_dew := (T_dew - 273.15)%fl in
  let e := (e_0 * np_exp ((17.67 * T_dew) / (T_dew + 243.5)))%fl in
  let e_s := (e_0 * np_exp ((17.67 * T_air) / (T_air + 243.5)))%fl in
  let q_a := (0.622 * e / (p_air - 0.378 * e))%fl in
  let q_s := (0.622 * e_s / (p_air - 0.378 * e_s))%fl in
  (q_a, q_s).

(** Assumed values for [r_st] and coefficients of [r_soil]. *)
Definition r_st_min : fl := Fin 1e2.
Definition r_st_max : fl := Fin 1e4.
Definition c_sd : fl := Fin 25.
Definition coef_a : fl := Fin 3.5.
Definition coef_b : R := 2.3.
Definition coef_c : fl := Fin 433.5.

(** The locals of [lhf] that make the resistance network; [sm] is a
    scalar, so [np.nanmax(sm)] ranges over that one element. *)
Definition sm_max (sm : fl) : fl := nanmax [sm].

Definition c_sw (sm : fl) : fl := (sm / sm_max sm)%fl.

Definition r_st (sm S_d : fl) : fl :=
  (r_st_min / c_sw sm
   + ((r_st_max - r_st_min) / c_sw sm) * (1 - np_tanh (S_d / c_sd)))%fl.

Definition r_c (sm S_d LAI : fl) : fl := (r_st sm S_d / LAI)%fl.

Definition r_soil (sm : fl) : fl :=
  (coef_a * (sm_max sm / sm) ** coef_b + coef_c)%fl.

(** [lhf(T_lst, T_air, T_dew, p_air, r_av, sm, S_d, LAI)] *)
Definition lhf (T_lst T_air T_dew p_air r_av sm S_d LAI : fl) : fl :=
  let '(q_a, q_sat_l) := q T_air T_dew p_air in
  let '(_, q_sat_g) := q T_lst T_dew p_air in
  let T := (rho T_air p_air * (q_sat_l - q_a) / (r_av + r_c sm S_d LAI))%fl in
  let E := (rho T_air p_air * (q_sat_g - q_a) / (r_av + r_soil sm))%fl in
  ((T + E) * L_v)%fl.

(** The vapor pressure [q] computes for a finite temperature in Kelvin,
    as a real number. *)
Definition e_sat (T : R) : R :=
  fin_val (vapor_pressure (Fin T - 273.15)).

(** The specification's reading of the resistance network, which takes
    the maximum soil moisture from the caller:
    [c_sw = soilMoisture / soilMoistureMax]. *)
Definition spec_c_sw (soilMoisture soilMoistureMax : fl) : fl :=
  (soilMoisture / soilMoistureMax)%fl.

(** The specification's outcome for the resistance network: a pair of
    resistances, or one of the failures of its error taxonomy. *)
Inductive resistance_result : Type :=
| Resistances (canopy soil : fl)
| DivisionSingularity.

(** What [lhf] computes for the resistance network: it has no branch and
    no [raise], and numpy arithmetic signals warnings only. *)
Definition resistances (sm S_d LAI : fl) : resistance_result :=
  Resistances (r_c sm S_d LAI) (r_soil sm).

End Qe.

(* ================================================================== *)
(** ** Quality masking of the extracted window: [phys/sd.py], [s_d] *)
(* ================================================================== *)

Module Sd.

(** A two-dimensional numpy array: its shape and its elements in row-major
    order. *)
Record array2 : Type := Array2 {
  shape0 : nat;
  shape1 : nat;
  items : list fl
}.

Definition well_shaped (a : array2) : Prop :=
  List.length (items a) = (shape0 a * shape1 a)%nat.

(** [data[dqf != 0] = np.nan] *)
Definition mask_pixel (v : fl) (flag : Z) : fl :=
  if (flag =? 0)%Z then v else NaN.

Fixpoint mask_items (vs : list fl) (dqf : list Z) : list fl :=
  match vs, dqf with
  | v :: vs', f :: dqf' => mask_pixel v f :: mask_items vs' dqf'
  | _, _ => vs
  end.

(** [np.sum(np.isnan(data))] *)
Definition count_nan (vs : list fl) : nat :=
  List.length (filter isnan vs).

(** [np.zeros(data.shape)] *)
Definition zeros (n0 n1 : nat) : array2 :=
  Array2 n0 n1 (repeat (Fin 0) (n0 * n1)).

(** Lines 161-167 of [s_d]: the data of the window after the quality
    flags have been applied. *)
Definition s_d_data (data : array2) (dqf : list Z) : array2 :=
  let data := Array2 (shape0 data) (shape1 data) (mask_items (items data) dqf) in
  if (count_nan (items data) =? shape0 data * shape1 data)%nat
  then zeros (shape0 data) (shape1 data)
  else data.

End Sd.

(* ================================================================== *)
(** ** Square truncation of the axes: [grid/smap.py], [main] *)
(* ================================================================== *)

Module Smap.

(** [l[:k]] for a Python integer [k]: the first [k] elements, or all but
    the last [-k] when [k] is negative. *)
Definition py_slice_to {A : Type} (l : list A) (k : Z) : list A :=
  if (k <? 0)%Z
  then firstn (Z.to_nat (Z.of_nat (List.length l) + k)) l
  else firstn (Z.to_nat k) l.

(** The opened dataset: the latitude axis [arr['lat'].values[:, 0]], the
    longitude axis [arr['lon'].values[0, :]] and the resampled data,
    indexed by latitude, then longitude (each cell holds the hours). *)
Record dataset (cell : Type) : Type := Dataset {
  lat_axis : list fl;
  lon_axis : list fl;
  data : list (list cell)
}.

Arguments Dataset {cell} _ _ _.
Arguments lat_axis {cell} _.
Arguments lon_axis {cell} _.
Arguments data {cell} _.

(** Lines 149-158 of [main]. *)
Definition main_square {cell : Type} (arr : dataset cell)
  : list fl * list fl * list (list cell) :=
  let dim_diff :=
    (Z.of_nat (List.length (lat_axis arr)) - Z.of_nat (List.length (lon_axis arr)))%Z in
  if (dim_diff >? 0)%Z then
    (py_slice_to (lat_axis arr) (- dim_diff), lon_axis arr,
     py_slice_to (data arr) (- dim_diff))
  else if (dim_diff <? 0)%Z then
    (lat_axis arr, py_slice_to (lon_axis arr) (- dim_diff),
     map (fun row => py_slice_to row (- dim_diff)) (data arr))
  else
    (lat_axis arr, lon_axis arr, data arr).

(** A grid of three latitudes and four longitudes, and one of four
    latitudes and three longitudes. *)
Definition wide_grid : dataset nat :=
  Dataset [Fin 40; Fin 41; Fin 42] [Fin (-75); Fin (-74); Fin (-73); Fin (-72)]
          [[0; 1; 2; 3]; [10; 11; 12; 13]; [20; 21; 22; 23]]%nat.

Definition tall_grid : dataset nat :=
  Dataset [Fin 40; Fin 41; Fin 42; Fin 43] [Fin (-75); Fin (-74); Fin (-73)]
          [[0; 1; 2]; [10; 11; 12]; [20; 21; 22]; [30; 31; 32]]%nat.

End Smap.

(* ================================================================== *)
(** ** Hourly alignment: [vdtn/obs/ameriflux/reader.py], [csv_reader] *)
(* ================================================================== *)

Module Reader.

Section Align.

(** The observed columns of one row of the station file. *)
Variable row : Type.

(** Timestamps are nanoseconds since an epoch, the resolution of the
    [datetime64] column and of [pd.date_range].  A sample is a row of
    the file with its [datetime]; a row of the result holds the observed
    columns, or [None] where the merge found no sample and filled the
    columns with [nan]. *)
Definition sample : Type := (Z * row)%type.
Definition aligned : Type := (Z * option row)%type.

Definition hour : Z := 3600000000000.

(** [(end_date-start_date).total_seconds()/3600+1] for a difference
    [delta], as [pd.date_range] takes it: a float number of periods is
    cast with [int], which truncates towards zero.  The quotient is
    taken exactly here; the code computes it in doubles. *)
Definition periods (delta : Z) : Z := Z.quot (delta + hour) hour.

(** [np.linspace(0, stop, num, dtype='int64')]: [arange(num) * step]
    with [step = stop / (num - 1)], the last value replaced by [stop]
    when [num > 1], every value rounded down.  The products are taken
    exactly here; numpy computes them in doubles. *)
Definition np_linspace (stop : Z) (num : nat) : list Z :=
  let div := (Z.of_nat num - 1)%Z in
  let y :=
    map (fun i => if (0 <? div)%Z then (Z.of_nat i * stop / div)%Z
                  else (Z.of_nat i * stop)%Z)
        (seq 0 num) in
  if (1 <? num)%nat then removelast y ++ [stop] else y.

(** [pd.date_range(start, end, periods)]: [periods] instants linearly
    spaced from [start] to [end], both included; a negative number of
    periods is a [ValueError]. *)
Definition date_range (start_date end_date : Z) (periods : Z)
  : outcome (list Z) :=
  if (periods <? 0)%Z then Raises ValueError
  else Returns (map (fun off => (start_date + off)%Z)
                    (np_linspace (end_date - start_date) (Z.to_nat periods))).

(** [pd.merge(data, date_df, how='right', on=['datetime'])]: for every
    instant of [date_df], in order, the rows of [data] at that instant,
    or one row of [nan] when there is none. *)
Definition merge_right (data : list sample) (date_df : list Z) : list aligned :=
  flat_map
    (fun d =>
       match filter (fun s => (fst s =? d)%Z) data with
       | [] => [(d, None)]
       | hits => map (fun s => (d, Some (snd s))) hits
       end)
    date_df.

(** [data.sort_values(by=['datetime'])] *)
Fixpoint insert_by_time (r : aligned) (rs : list aligned) : list aligned :=
  match rs with
  | [] => [r]
  | r' :: rs' =>
      if (fst r <=? fst r')%Z then r :: rs
      else r' :: insert_by_time r rs'
  end.

Definition sort_values (rs : list aligned) : list aligned :=
  fold_right insert_by_time [] rs.

(** Lines 136-148 of [csv_reader], from the date filtering on. *)
Definition csv_reader_align (data : list sample) (start_date end_date : Z)
  : outcome (list aligned) :=
  let end_date := (end_date + hour)%Z in
  let data :=
    filter (fun s => (start_date <=? fst s)%Z && (fst s <=? end_date)%Z) data in
  date_range <- date_range start_date end_date (periods (end_date - start_date)) ;;
  let data := merge_right data date_range in
  let data := sort_values data in
  Returns (removelast data).

(** The observed columns at instant [t], if a sample carries it. *)
Definition sample_at (data : list sample) (t : Z) : option row :=
  option_map snd (find (fun s => (fst s =? t)%Z) data).

(** The result the specification describes for a window of [n] whole
    hours: one row per hour from [start_date] to the end, both included. *)
Definition hourly_rows (data : list sample) (start_date : Z) (n : nat)
  : list aligned :=
  map (fun i => let t := (start_date + hour * Z.of_nat i)%Z in (t, sample_at data t))
      (seq 0 (S n)).

End Align.

Arguments csv_reader_align {row} data start_date end_date.
Arguments merge_right {row} data date_df.
Arguments sort_values {row} rs.
Arguments insert_by_time {row} r rs.
Arguments sample_at {row} data t.
Arguments hourly_rows {row} data start_date n.

(** Two rows of the station file with the same timestamp, and a day of
    24 hours. *)
Definition twice_midnight : list (Z * nat) := [(0%Z, 1%nat); (0%Z, 2%nat)].
Definition one_day : Z := 24 * hour.

(** A window of one hour and one second, and a window that ends three
    hours before it starts. *)
Definition hour_and_second : Z := hour + 1000000000.
Definition three_hours_back : Z := - (3 * hour).

(** The longest window the length of the result is stated for.  Within
    it the double-precision quotient of [periods] has the integer part
    of the exact one. *)
Definition longest_window : Z := 100000 * hour.

(** The number of periods as the code computes it, in doubles, for a
    difference of [delta] nanoseconds.  [total_seconds()] is the
    quotient, rounded once, of the microseconds of the difference by
    [10**6]; it is divided by 3600, one is added, and [int] truncates. *)
Definition double_of_Z (z : Z) : spec_float :=
  match z with
  | Z0 => S754_zero false
  | Zpos m => S754_finite false m 0
  | Zneg m => S754_finite true m 0
  end.

Definition py_int (f : spec_float) : Z :=
  match f with
  | S754_finite s m e =>
      let v := if (0 <=? e)%Z then (Z.pos m * 2 ^ e)%Z else (Z.pos m / 2 ^ (- e))%Z in
      if s then (- v)%Z else v
  | _ => 0%Z
  end.

Definition periods_double (delta : Z) : Z :=
  let total_seconds := SFdiv 53 1024 (double_of_Z (delta / 1000)) (double_of_Z 1000000) in
  py_int (SFadd 53 1024 (SFdiv 53 1024 total_seconds (double_of_Z 3600))
                (double_of_Z 1)).

(** A window of 4194303 hours less a microsecond, some 478 years. *)
Definition long_window : Z := 4194303 * hour - 1000.

(** Rows in strictly ascending order of time. *)
Definition ascending {row : Type} (rs : list (Z * option row)) : Prop :=
  StronglySorted (fun a b => (fst a < fst b)%Z) rs.

End Reader.

(* ================================================================== *)
(** ** The extraction window of [s_d]: [phys/sd.py], lines 141-157 *)
(* ================================================================== *)

Module SdWindow.

(** [l[i] = v] on a Python list. *)
Definition py_setitem {A : Type} (l : list A) (i : nat) (v : A) : outcome (list A) :=
  if (i <? List.length l)%nat
  then Returns (firstn i l ++ v :: skipn (S i) l)
  else Raises IndexError.

(** [l[i], l[j] = l[j], l[i]]: the right-hand side is read first, then
    the two items are assigned from left to right. *)
Definition py_swap {A : Type} (l : list A) (i j : nat) : outcome (list A) :=
  vj <- py_index l j ;;
  vi <- py_index l i ;;
  l1 <- py_setitem l i vj ;;
  py_setitem l1 j vi.

(** [l[a:b]] for indices that are not negative. *)
Definition py_slice {A : Type} (l : list A) (a b : nat) : list A :=
  firstn (b - a) (skipn a l).

(** [arr[a:b, c:d]] on a two-dimensional array held as a list of rows. *)
Definition py_slice2 {A : Type} (arr : list (list A)) (a b c d : nat)
  : list (list A) :=
  map (fun row => py_slice row c d) (py_slice arr a b).

(** The index list after the loop over the two corners: the row and the
    column of the grid point nearest to [(domain[0], domain[2])], then
    those of the grid point nearest to [(domain[1], domain[3])]. *)
Definition corner_indices (row0 col0 row1 col1 : nat) : list nat :=
  [row0; col0; row1; col1].

(** Lines 150-157: the two swaps, then the slice taken from each grid. *)
Definition window {A : Type} (grid : list (list A)) (goes_idx : list nat)
  : outcome (list (list A)) :=
  goes_idx <- py_swap goes_idx 0 2 ;;
  goes_idx <- py_swap goes_idx 1 2 ;;
  i0 <- py_index goes_idx 0 ;;
  i1 <- py_index goes_idx 1 ;;
  i2 <- py_index goes_idx 2 ;;
  i3 <- py_index goes_idx 3 ;;
  Returns (py_slice2 grid i0 i1 i2 i3).

End SdWindow.

(* ================================================================== *)
(** ** Potential temperature: [phys/qe.py], [theta] *)
(* ================================================================== *)

Module Theta.

(** The exceptions [math.pow] raises. *)
Inductive math_error : Type :=
| ValueError
| OverflowError.

Inductive result (A : Type) : Type :=
| Ok (a : A)
| Error (e : math_error).

Arguments Ok {A} a.
Arguments Error {A} e.

Definition and_then {A B : Type} (m : result A) (k : A -> result B) : result B :=
  match m with
  | Ok a => k a
  | Error e => Error e
  end.

(** The largest finite [float]. *)
Definition max_float : R := (2 - / 2 ^ 52) * 2 ^ 1023.

(** A finite result of [math.pow], or [OverflowError] when it is out of
    the range of [float]. *)
Definition in_range (r : R) : result fl :=
  if Rlt_dec max_float (Rabs r) then Error OverflowError else Ok (Fin r).

Definition is_integer (y : R) : bool :=
  if Req_EM_T (frac_part y) 0 then true else false.

(** [math.pow(x, y)] on floats: the C function [pow], with [ValueError]
    for a negative base with a fractional exponent and for a zero base
    with a negative exponent, and [OverflowError] for a finite result
    out of range. *)
Definition math_pow (x y : fl) : result fl :=
  match x, y with
  | Fin a, Fin b =>
      if Req_EM_T b 0 then Ok (Fin 1)
      else if Rlt_dec 0 a then in_range (Rpower a b)
      else if Req_EM_T a 0
           then (if Rlt_dec 0 b then Ok (Fin 0) else Error ValueError)
      else if is_integer b then in_range (powerRZ a (Int_part b))
      else Error ValueError
  | Fin a, PInf =>
      if Req_EM_T (Rabs a) 1 then Ok (Fin 1)
      else if Rlt_dec (Rabs a) 1 then Ok (Fin 0) else Ok PInf
  | Fin a, NInf =>
      if Req_EM_T (Rabs a) 1 then Ok (Fin 1)
      else if Rlt_dec (Rabs a) 1 then Ok PInf else Ok (Fin 0)
  | Fin a, NaN => if Req_EM_T a 1 then Ok (Fin 1) else Ok NaN
  | PInf, Fin b =>
      if Req_EM_T b 0 then Ok (Fin 1)
      else if Rlt_dec 0 b then Ok PInf else Ok (Fin 0)
  | NInf, Fin b =>
      if Req_EM_T b 0 then Ok (Fin 1)
      else if Rlt_dec 0 b
           then (if is_integer b && Z.odd (Int_part b) then Ok NInf else Ok PInf)
      else Ok (Fin 0)
  | PInf, PInf | NInf, PInf => Ok PInf
  | PInf, NInf | NInf, NInf => Ok (Fin 0)
  | NaN, Fin b => if Req_EM_T b 0 then Ok (Fin 1) else Ok NaN
  | _, _ => Ok NaN
  end.

(** Specific heat capacity of air at constant pressure. *)
Definition c_p : fl := Fin 1006.

(** [theta(T_air, T_dew, p_air)]: the virtual potential temperature is
    computed and dropped, the potential temperature is returned. *)
Definition theta (T_air T_dew p_air : fl) : result fl :=
  let T_dew := (T_dew - 273.15)%fl in
  and_then (math_pow (1000 / p_air)%fl (Qe.R_gas / c_p)%fl) (fun pw0 =>
  let theta_0 := (T_air * pw0)%fl in
  and_then (math_pow (Fin 10) (7.5 * T_dew / (237.7 + T_dew))%fl) (fun pwv =>
  let theta_v := (T_air / (1 - 0.379 * 6.11 * pwv / p_air))%fl in
  Ok theta_0)).

End Theta.

(* ================================================================== *)
(** ** The hours of the date range: [grid/smap.py], [main], lines 143-147 *)
(* ================================================================== *)

Module SmapHours.

(** [l[a:b]] for Python integers: a negative index counts from the end,
    and both bounds are clipped to the list. *)
Definition py_bound (n i : Z) : Z :=
  if (i <? 0)%Z then Z.max 0 (n + i) else Z.min i n.

Definition py_slice_z {A : Type} (l : list A) (a b : Z) : list A :=
  let n := Z.of_nat (List.length l) in
  let a' := py_bound n a in
  let b' := py_bound n b in
  firstn (Z.to_nat (b' - a')) (skipn (Z.to_nat a') l).

(** [int((date - datetime(2017, 1, 1)).total_seconds() // 3600)], for a
    date given in seconds since the first of January 2017. *)
Definition hour_index (seconds : Z) : Z := (seconds / 3600)%Z.

(** The hours kept of one hourly series:
    [values[..., hrs[0]:hrs[1]+1]] with [hrs] computed from the first
    and the last date of the range. *)
Definition hour_slice {A : Type} (series : list A) (first_date last_date : Z)
  : list A :=
  py_slice_z series (hour_index first_date) (hour_index last_date + 1).

End SmapHours.

(* ================================================================== *)
(** ** The search for a stored file: [main] of [grid/smap.py] and of
       [grid/lai.py] *)
(* ================================================================== *)

Module FileSearch.

(** File names are lists of characters. *)
Definition name : Type := list ascii.

Inductive failure : Type :=
| Index_error
| Value_error.

Inductive result (A : Type) : Type :=
| Done (a : A)
| Failed (e : failure).

Arguments Done {A} a.
Arguments Failed {A} e.

Definition and_then {A B : Type} (m : result A) (k : A -> result B) : result B :=
  match m with
  | Done a => k a
  | Failed e => Failed e
  end.

Fixpoint starts_with (prefix s : name) : bool :=
  match prefix, s with
  | [], _ => true
  | c :: prefix', d :: s' => Ascii.eqb c d && starts_with prefix' s'
  | _ :: _, [] => false
  end.

(** [s.endswith(suffix)] *)
Definition endswith (s suffix : name) : bool :=
  starts_with (rev suffix) (rev s).

(** [s.split(sep)] for a separator of one character. *)
Fixpoint split (sep : ascii) (s : name) : list name :=
  match s with
  | [] => [[]]
  | c :: s' =>
      if Ascii.eqb c sep then [] :: split sep s'
      else match split sep s' with
           | part :: parts => (c :: part) :: parts
           | [] => [[c]]
           end
  end.

(** [l[-k]] for [k >= 1]. *)
Definition from_end {A : Type} (l : list A) (k : nat) : result A :=
  match nth_error (rev l) (k - 1) with
  | Some a => Done a
  | None => Failed Index_error
  end.

Definition dot : ascii := "."%char.
Definition underscore : ascii := "_"%char.
Definition dot_nc : name := [dot; "n"%char; "c"%char].

(** [os.path.splitext(fname)[0]] for a name without directory part: the
    name up to its last dot, or the whole name when that dot has only
    dots before it. *)
Fixpoint drop_extension_rev (r : name) : option name :=
  match r with
  | [] => None
  | c :: r' => if Ascii.eqb c dot then Some r' else drop_extension_rev r'
  end.

Definition splitext_root (fname : name) : name :=
  match drop_extension_rev (rev fname) with
  | Some r' => if forallb (Ascii.eqb dot) r' then fname else rev r'
  | None => fname
  end.

Section Search.

(** [datetime.datetime.strptime(s, '%Y%m%d')]: the date as a number, or
    [ValueError]. *)
Variable strptime : name -> result Z.

(** The dates [fdate] read from a file name. *)
Definition file_dates (fname : name) : result (Z * Z) :=
  let fname_ := splitext_root fname in
  and_then (from_end (split underscore fname_) 2) (fun s =>
  and_then (strptime (tl s)) (fun d0 =>
  and_then (from_end (split underscore fname_) 1) (fun e =>
  and_then (strptime (tl e)) (fun d1 =>
  Done (d0, d1))))).

(** [fdate[0] <= date_range[0] and fdate[-1] >= date_range[-1]] *)
Definition covers (fdate : Z * Z) (first_date last_date : Z) : bool :=
  (fst fdate <=? first_date)%Z && (last_date <=? snd fdate)%Z.

(** [main] of [smap.py], lines 116-134: the loop ends at the first
    [.nc] file whose dates cover the range.  The state is
    [(file_exists, fpath, fname)]: paths are given by their file name,
    and [fname], first the generated name, is also the loop variable. *)
Fixpoint smap_search (listing : list name) (first_date last_date : Z)
         (fpath fname : name) : result (bool * name * name) :=
  match listing with
  | [] => Done (false, fpath, fname)
  | entry :: rest =>
      let fname := entry in
      if endswith fname dot_nc then
        and_then (file_dates fname) (fun fdate =>
        if covers fdate first_date last_date
        then Done (true, fname, fname)
        else smap_search rest first_date last_date fpath fname)
      else smap_search rest first_date last_date fpath fname
  end.

(** The file the dataset is read from when [file_exists] holds, and the
    file a new dataset is written to otherwise
    ([arr.to_netcdf(os.path.join(..., 'smap', fname))]). *)
Definition smap_read_name (st : bool * name * name) : name := snd (fst st).
Definition smap_write_name (st : bool * name * name) : name := snd st.

(** [main] of [lai.py], lines 89-104: the [break] follows the test of
    the dates, so the loop ends at the first [.nc] file.  The result is
    [(file_exists, fname)], with the generated name when nothing was
    found. *)
Fixpoint lai_search (listing : list name) (first_date last_date : Z)
         (generated : name) : result (bool * name) :=
  match listing with
  | [] => Done (false, generated)
  | file :: rest =>
      if endswith file dot_nc then
        and_then (file_dates file) (fun fdate =>
        if covers fdate first_date last_date
        then Done (true, file)
        else Done (false, generated))
      else lai_search rest first_date last_date generated
  end.

End Search.

End FileSearch.

(** A stand-in for [strptime] with the format [%Y%m%d], used on concrete
    file names: eight digits read as one number. *)
Module FileNames.

Definition digit_value (c : ascii) : option Z :=
  let n := nat_of_ascii c in
  if ((48 <=? n) && (n <=? 57))%nat then Some (Z.of_nat (n - 48)) else None.

Fixpoint digits_value (acc : Z) (s : FileSearch.name) : option Z :=
  match s with
  | [] => Some acc
  | c :: s' =>
      match digit_value c with
      | Some d => digits_value (10 * acc + d)%Z s'
      | None => None
      end
  end.

Definition strptime_digits (s : FileSearch.name) : FileSearch.result Z :=
  if (List.length s =? 8)%nat
  then match digits_value 0 s with
       | Some v => FileSearch.Done v
       | None => FileSearch.Failed FileSearch.Value_error
       end
  else FileSearch.Failed FileSearch.Value_error.

Definition file_2017 : FileSearch.name :=
  list_ascii_of_string "soil_36.6_-97.4_s20170101_e20171231.nc".
Definition file_2018 : FileSearch.name :=
  list_ascii_of_string "soil_36.6_-97.4_s20180101_e20181231.nc".
Definition file_plain : FileSearch.name := list_ascii_of_string "notes.nc".
Definition file_text : FileSearch.name := list_ascii_of_string "readme.txt".
Definition file_new : FileSearch.name :=
  list_ascii_of_string "soil_36.6_-97.4_s20180301_e20180302.nc".

End FileNames.

(* ================================================================== *)
(** ** The bounding box of [reader]: [grid/smap.py], lines 45 and 69-75 *)
(* ================================================================== *)

Module SmapReader.

(** [a >= b] and [a <= b] on floats; false when either is [nan]. *)
Definition ge (a b : fl) : bool := negb (isnan a) && negb (isnan b) && negb (a <? b)%fl.
Definition le (a b : fl) : bool := ge b a.

(** [bound_box = [crd[0]-res, crd[1]-res, crd[0]+res, crd[1]+res]] *)
Definition bound_box (crd0 crd1 res : fl) : fl * fl * fl * fl :=
  ((crd0 - res)%fl, (crd1 - res)%fl, (crd0 + res)%fl, (crd1 + res)%fl).

(** [(lat >= bound_box[0]) & (lat <= bound_box[2])
     & (lon >= bound_box[1]) & (lon <= bound_box[3])] for one grid point. *)
Definition in_box (bb : fl * fl * fl * fl) (la lo : fl) : bool :=
  let '(b0, b1, b2, b3) := bb in
  ge la b0 && le la b2 && ge lo b1 && le lo b3.

(** One grid point: its latitude, its longitude and its value. *)
Definition point : Type := (fl * fl * fl)%type.

(** [np.where(mask, temp, np.nan)] on one point. *)
Definition where_in_box (bb : fl * fl * fl * fl) (pt : point) : fl :=
  let '(la, lo, v) := pt in if in_box bb la lo then v else NaN.

(** [~np.all(np.isnan(a), axis=1)]: one flag per row. *)
Definition row_mask (a : list (list fl)) : list bool :=
  map (fun row => negb (forallb isnan row)) a.

(** [~np.all(np.isnan(a), axis=0)]: one flag per column, the number of
    columns being that of the first row. *)
Definition col_mask (a : list (list fl)) : list bool :=
  map (fun j => negb (forallb (fun row => isnan (nth j row NaN)) a))
      (seq 0 (List.length (hd [] a))).

(** [a[mask]] for a boolean mask. *)
Fixpoint select {A : Type} (mask : list bool) (l : list A) : list A :=
  match mask, l with
  | m :: mask', x :: l' => if m then x :: select mask' l' else select mask' l'
  | _, _ => []
  end.

(** [a[~np.all(np.isnan(a), axis=1)][:, ~np.all(np.isnan(a), axis=0)]] *)
Definition drop_nan (a : list (list fl)) : list (list fl) :=
  map (select (col_mask a)) (select (row_mask a) a).

(** Lines 69 and 73: the values of one pass cut to the bounding box. *)
Definition temp_in_box (bb : fl * fl * fl * fl) (grid : list (list point))
  : list (list fl) :=
  drop_nan (map (map (where_in_box bb)) grid).

End SmapReader.

(* ================================================================== *)
(** ** Comparison of floats *)
(* ================================================================== *)

Module NpCompare.

(** [a == b] on floats: false as soon as one of them is [nan]. *)
Definition eqb (a b : fl) : bool :=
  match a, b with
  | Fin x, Fin y => if Req_EM_T x y then true else false
  | PInf, PInf | NInf, NInf => true
  | _, _ => false
  end.

End NpCompare.

(* ================================================================== *)
(** ** The scan of the finders, for any distance computation *)
(* ================================================================== *)

Module GeoScan.

Import Geo.

Section ScanWith.

(** The value the call [distance(lat_loc, lon_loc, lat, lon)] returns:
    [Geo.distance] in exact arithmetic, or what the floating-point
    evaluation of the same expression gives. *)
Variable dist : fl -> fl -> fl -> fl -> fl.

Variable label : string -> string.
Variables lat_loc lon_loc : fl.
Variable t : table.

Definition scan_body_with (st : scan_state) (i : nat) : outcome scan_state :=
  la <- py_index (lat_asos t) i ;;
  lo <- py_index (lon_asos t) i ;;
  let d := dist lat_loc lon_loc la lo in
  if (d <? fst st)%fl
  then (c <- py_index (stations t) i ;; Returns (d, label c))
  else Returns st.

Definition scan_with : outcome string :=
  st <- for_each scan_body_with (py_range 1 (List.length (lat_asos t))) scan_init ;;
  Returns (snd st).

End ScanWith.

(** The two finders over a distance computation. *)
Definition asos_find_with (dist : fl -> fl -> fl -> fl -> fl)
           (lat_loc lon_loc : fl) (t : table) : outcome string :=
  scan_with dist (fun c => String "K" c) lat_loc lon_loc t.

Definition site_finder_with (dist : fl -> fl -> fl -> fl -> fl)
           (lat_crd lon_crd : fl) (t : table) : outcome string :=
  scan_with dist (fun c => c) lat_crd lon_crd t.

(** The rows of a candidate list that the loop compares. *)
Definition compared_rows (cs : list candidate) : list candidate := tl cs.

(** The distance computed for a row. *)
Definition row_dist (dist : fl -> fl -> fl -> fl -> fl) (lat_loc lon_loc : fl)
           (c : candidate) : fl :=
  dist lat_loc lon_loc (lat c) (lon c).

(** One turn of the loop on a row, keeping the row itself. *)
Definition choose (dist : fl -> fl -> fl -> fl -> fl) (lat_loc lon_loc : fl)
           (st : fl * option candidate) (c : candidate) : fl * option candidate :=
  if (row_dist dist lat_loc lon_loc c <? fst st)%fl
  then (row_dist dist lat_loc lon_loc c, Some c)
  else st.

(** The row the loop has selected when it ends, if any. *)
Definition selected_row (dist : fl -> fl -> fl -> fl -> fl) (lat_loc lon_loc : fl)
           (cs : list candidate) : option candidate :=
  snd (fold_left (choose dist lat_loc lon_loc) (compared_rows cs)
                 (fst scan_init, None)).

(** What a finder returns for a selected row, or for none. *)
Definition answer (label : string -> string) (o : option candidate) : string :=
  match o with
  | Some c => label (code c)
  | None => EmptyString
  end.

(** A table in which the station nearest to (0, 0) is neither the first
    nor the last of the compared rows. *)
Definition four_rows : list candidate :=
  [station_first; station_B; station_A; station_KJFK].

End GeoScan.

(* ================================================================== *)
(** * Properties *)
(* ================================================================== *)

(** ** Arithmetic of [fl] on finite values *)

Section FlFacts.

Lemma add_fin (x y : R) : (Fin x + Fin y)%fl = Fin (x + y).
Proof. reflexivity. Qed.

Lemma sub_fin (x y : R) : (Fin x - Fin y)%fl = Fin (x - y).
Proof. reflexivity. Qed.

Lemma mul_fin (x y : R) : (Fin x * Fin y)%fl = Fin (x * y).
Proof. reflexivity. Qed.

Lemma np_cos_fin (x : R) : np_cos (Fin x) = Fin (cos x).
Proof. reflexivity. Qed.

Lemma np_exp_fin (x : R) : np_exp (Fin x) = Fin (exp x).
Proof. reflexivity. Qed.

Lemma np_tanh_fin (x : R) : np_tanh (Fin x) = Fin (tanh x).
Proof. reflexivity. Qed.

Lemma div_fin (x y : R) : y <> 0 -> (Fin x / Fin y)%fl = Fin (x / y).
Proof.
  intros Hy. unfold div. destruct (Req_EM_T y 0) as [E | _]; [contradiction | reflexivity].
Qed.

Lemma div_fin_zero_pos (x : R) : 0 < x -> (Fin x / Fin 0)%fl = PInf.
Proof.
  intros Hx. unfold div, signed_inf.
  destruct (Req_EM_T 0 0) as [_ | N]; [| lra].
  destruct (Req_EM_T x 0) as [E | _]; [lra |].
  destruct (Rlt_dec 0 x) as [_ | N]; [reflexivity | lra].
Qed.

Lemma div_zero_zero : (Fin 0 / Fin 0)%fl = NaN.
Proof.
  unfold div, signed_inf.
  destruct (Req_EM_T 0 0) as [_ | N]; [reflexivity | lra].
Qed.

Lemma div_self (x : R) : x <> 0 -> (Fin x / Fin x)%fl = Fin 1.
Proof. intros Hx. rewrite div_fin by assumption. f_equal. now field. Qed.

Lemma ltb_fin_true (x y : R) : x < y -> (Fin x <? Fin y)%fl = true.
Proof. intros H. unfold ltb. destruct (Rlt_dec x y); [reflexivity | contradiction]. Qed.

Lemma ltb_fin_false (x y : R) : y <= x -> (Fin x <? Fin y)%fl = false.
Proof. intros H. unfold ltb. destruct (Rlt_dec x y); [lra | reflexivity]. Qed.

Lemma mul_nan_r (a : fl) : (a * NaN)%fl = NaN.
Proof. destruct a; reflexivity. Qed.

Lemma nanmax_single (a : fl) : nanmax [a] = a.
Proof. reflexivity. Qed.

Lemma np_sqrt_fin (x : R) : 0 <= x -> np_sqrt (Fin x) = Fin (sqrt x).
Proof. intros H. unfold np_sqrt. destruct (Rlt_dec x 0); [lra | reflexivity]. Qed.

Lemma np_arcsin_fin (x : R) : -1 <= x <= 1 -> np_arcsin (Fin x) = Fin (asin x).
Proof.
  intros [H1 H2]. unfold np_arcsin.
  destruct (Rle_dec (-1) x); [| contradiction].
  destruct (Rle_dec x 1); [reflexivity | contradiction].
Qed.

Lemma np_power_one (y : R) : 0 < y -> (Fin 1 ** y)%fl = Fin 1.
Proof.
  intros Hy. unfold np_power.
  destruct (Req_EM_T y 0); [reflexivity |].
  destruct (Rlt_dec 0 1) as [_ | N]; [| lra].
  f_equal. unfold Rpower. rewrite ln_1, Rmult_0_r. apply exp_0.
Qed.

Lemma np_power_nan (y : R) : y <> 0 -> (NaN ** y)%fl = NaN.
Proof. intros Hy. unfold np_power. destruct (Req_EM_T y 0); [contradiction | reflexivity]. Qed.

Lemma tanh_lt_1 (x : R) : tanh x < 1.
Proof.
  unfold tanh, sinh, cosh.
  pose proof (exp_pos x). pose proof (exp_pos (- x)).
  apply Rmult_lt_reg_r with ((exp x + exp (- x)) / 2); [lra |].
  field_simplify; lra.
Qed.

End FlFacts.

(** Push [Fin] through the arithmetic of finite values; the divisors met
    on the way must be provably non-zero. *)
Ltac fin_arith :=
  repeat (first
    [ rewrite add_fin | rewrite sub_fin | rewrite mul_fin
    | rewrite np_cos_fin | rewrite np_exp_fin | rewrite np_tanh_fin
    | rewrite div_fin by (assumption || lra) ]).

(** ** The great-circle distance on finite coordinates *)

Section DistanceFacts.

Import Geo.

Lemma hav_bounds (la1 lo1 la2 lo2 : R) : 0 <= hav la1 lo1 la2 lo2 <= 1.
Proof.
  unfold hav.
  replace ((la2 - la1) * deg) with (la2 * deg - la1 * deg) by ring.
  rewrite cos_minus.
  pose proof (COS_bound ((lo2 - lo1) * deg)) as Hd.
  pose proof (COS_bound (la2 * deg - la1 * deg)) as Hm.
  pose proof (COS_bound (la2 * deg + la1 * deg)) as Hp.
  rewrite cos_minus in Hm. rewrite cos_plus in Hp.
  set (c1 := cos (la1 * deg)) in *. set (c2 := cos (la2 * deg)) in *.
  set (s1 := sin (la1 * deg)) in *. set (s2 := sin (la2 * deg)) in *.
  set (t := cos ((lo2 - lo1) * deg)) in *.
  split; nra.
Qed.

Lemma sqrt_hav_bounds (la1 lo1 la2 lo2 : R) :
  0 <= sqrt (hav la1 lo1 la2 lo2) <= 1.
Proof.
  pose proof (hav_bounds la1 lo1 la2 lo2) as [H0 H1]. split.
  - apply sqrt_pos.
  - rewrite <- sqrt_1. apply sqrt_le_1_alt. exact H1.
Qed.

Lemma distance_fin (la1 lo1 la2 lo2 : R) :
  distance (Fin la1) (Fin lo1) (Fin la2) (Fin lo2) = Fin (gc_dist la1 lo1 la2 lo2).
Proof.
  unfold distance, np_pi, R_earth.
  fin_arith. fold deg. fold (hav la1 lo1 la2 lo2).
  pose proof (hav_bounds la1 lo1 la2 lo2) as [H0 H1].
  pose proof (sqrt_hav_bounds la1 lo1 la2 lo2) as [S0 S1].
  rewrite np_sqrt_fin by assumption.
  rewrite np_arcsin_fin by lra.
  reflexivity.
Qed.

Lemma gc_dist_bounds (la1 lo1 la2 lo2 : R) :
  0 <= gc_dist la1 lo1 la2 lo2 <= PI * 6378137.
Proof.
  unfold gc_dist.
  pose proof (sqrt_hav_bounds la1 lo1 la2 lo2) as [S0 S1].
  pose proof (asin_bound (sqrt (hav la1 lo1 la2 lo2))) as [_ Hhi].
  assert (0 <= asin (sqrt (hav la1 lo1 la2 lo2))) as Hlo.
  { destruct (Rle_lt_dec 0 (asin (sqrt (hav la1 lo1 la2 lo2)))) as [L | L]; [exact L |].
    pose proof (asin_bound (sqrt (hav la1 lo1 la2 lo2))) as [Hb _].
    pose proof (sin_asin (sqrt (hav la1 lo1 la2 lo2)) ltac:(lra)) as Hs.
    pose proof PI_RGT_0.
    assert (sin (asin (sqrt (hav la1 lo1 la2 lo2))) < 0)
      by (apply sin_lt_0_var; lra).
    lra. }
  split; nra.
Qed.

(** Every finite distance is below the initial [dists]. *)
Lemma gc_dist_lt_init (la1 lo1 la2 lo2 : R) :
  (Fin (gc_dist la1 lo1 la2 lo2) <? fst scan_init)%fl = true.
Proof.
  unfold scan_init, np_pi, R_earth. fin_arith. cbn [fst].
  apply ltb_fin_true.
  pose proof (gc_dist_bounds la1 lo1 la2 lo2) as [_ H].
  pose proof PI_RGT_0. nra.
Qed.

Lemma gc_dist_same (la lo : R) : gc_dist la lo la lo = 0.
Proof.
  unfold gc_dist, hav.
  replace ((la - la) * deg) with 0 by ring.
  replace ((lo - lo) * deg) with 0 by ring.
  rewrite cos_0.
  replace (0.5 - 1 / 2 + cos (la * deg) * cos (la * deg) * (1 - 1) / 2) with 0 by lra.
  rewrite sqrt_0, asin_0. ring.
Qed.

(** From the point (0, 0) to its antipode (0, 180): half the
    circumference. *)
Lemma gc_dist_antipode : gc_dist 0 0 0 180 = PI * 6378137.
Proof.
  unfold gc_dist, hav.
  replace ((0 - 0) * deg) with 0 by ring.
  replace ((180 - 0) * deg) with PI by (unfold deg; field).
  replace (0 * deg) with 0 by ring.
  rewrite cos_0, cos_PI.
  replace (0.5 - 1 / 2 + 1 * 1 * (1 - -1) / 2) with 1 by lra.
  rewrite sqrt_1, asin_1. field.
Qed.

End DistanceFacts.

(** ** The scan of the station table *)

Section ScanFacts.

Import Geo.

Variable label : string -> string.
Variables lat_loc lon_loc : fl.

Local Abbreviation pick := (Geo.pick label lat_loc lon_loc).

Lemma py_index_map_middle {A : Type} (f : candidate -> A)
      (pre : list candidate) (c : candidate) (post : list candidate) :
  py_index (map f (pre ++ c :: post)) (List.length pre) = Returns (f c).
Proof.
  unfold py_index. rewrite nth_error_map, nth_error_app2 by lia.
  rewrite Nat.sub_diag. reflexivity.
Qed.

Lemma scan_body_pick (pre : list candidate) (c : candidate)
      (post : list candidate) (st : scan_state) :
  scan_body label lat_loc lon_loc (table_of (pre ++ c :: post)) st (List.length pre)
  = Returns (pick st c).
Proof.
  unfold scan_body, table_of. cbn [lat_asos lon_asos stations].
  rewrite !py_index_map_middle. cbn [bind].
  unfold pick, dist_to.
  destruct (distance lat_loc lon_loc (lat c) (lon c) <? fst st)%fl; reflexivity.
Qed.

(** On a table built from a candidate list the loop raises nothing and
    is a left fold of [pick]. *)
Lemma for_each_scan_body (cs pre : list candidate) (st : scan_state) :
  for_each (scan_body label lat_loc lon_loc (table_of (pre ++ cs)))
           (seq (List.length pre) (List.length cs)) st
  = Returns (fold_left pick cs st).
Proof.
  revert pre st. induction cs as [| c cs IH]; intros pre st.
  - reflexivity.
  - cbn [List.length seq for_each fold_left].
    rewrite scan_body_pick. cbn [bind].
    specialize (IH (pre ++ [c]) (pick st c)).
    rewrite <- app_assoc in IH. cbn [app] in IH.
    rewrite length_app in IH. cbn [List.length] in IH.
    rewrite Nat.add_1_r in IH. exact IH.
Qed.

(** The first row of the table never enters the comparison: the loop
    starts at index 1. *)
Lemma scan_table_of (cs : list candidate) :
  scan label lat_loc lon_loc (table_of cs)
  = Returns (snd (fold_left pick (tl cs) scan_init)).
Proof.
  unfold scan, py_range. destruct cs as [| c0 rest].
  - reflexivity.
  - replace (List.length (lat_asos (table_of (c0 :: rest))))
      with (S (List.length rest))
      by (cbn [table_of lat_asos map List.length]; now rewrite length_map).
    rewrite Nat.sub_succ, Nat.sub_0_r. cbn [tl].
    pose proof (for_each_scan_body rest [c0] scan_init) as H.
    cbn [app List.length] in H. rewrite H. reflexivity.
Qed.

End ScanFacts.

(** ** What the scan selects *)

Section ScanMinimum.

Import Geo.

Variable label : string -> string.
Variables qa qo : R.

Local Abbreviation pick := (Geo.pick label (Fin qa) (Fin qo)).
Local Abbreviation rd := (rdist qa qo).

Lemma dist_to_finite (c : candidate) :
  finite_cand c = true -> dist_to (Fin qa) (Fin qo) c = Fin (rd c).
Proof.
  unfold finite_cand, dist_to, rdist. intros H.
  apply andb_prop in H as [Ha Ho].
  destruct (lat c); try discriminate. destruct (lon c); try discriminate.
  apply distance_fin.
Qed.

Lemma pick_finite (d : R) (s : string) (c : candidate) :
  finite_cand c = true ->
  pick (Fin d, s) c = if Rlt_dec (rd c) d then (Fin (rd c), label (code c)) else (Fin d, s).
Proof.
  intros H. unfold Geo.pick. rewrite (dist_to_finite c H). cbn [fst ltb].
  destruct (Rlt_dec (rd c) d); reflexivity.
Qed.

(** Invariant of the loop over finite candidates: either nothing was
    selected and no candidate seen so far is below the initial bound, or
    the state holds the first candidate of least distance seen so far. *)
Lemma fold_pick_minimum (d0 : R) (s0 : string) (cs : list candidate) :
  forallb finite_cand cs = true ->
  (fold_left pick cs (Fin d0, s0) = (Fin d0, s0)
   /\ forall c', In c' cs -> d0 <= rd c')
  \/ exists pre c post,
      cs = pre ++ c :: post
      /\ fold_left pick cs (Fin d0, s0) = (Fin (rd c), label (code c))
      /\ rd c < d0
      /\ (forall c', In c' pre -> rd c < rd c')
      /\ (forall c', In c' post -> rd c <= rd c').
Proof.
  induction cs as [| x cs IH] using rev_ind; intros Hfin.
  - left. split; [reflexivity | intros c' []].
  - rewrite forallb_app in Hfin. apply andb_prop in Hfin as [Hcs Hx].
    cbn [forallb] in Hx. rewrite andb_true_r in Hx.
    rewrite fold_left_app. cbn [fold_left].
    destruct (IH Hcs) as [[E Hall] | (pre & c & post & Ecs & E & Hlt & Hpre & Hpost)];
      rewrite E, (pick_finite _ _ x Hx).
    + destruct (Rlt_dec (rd x) d0) as [L | L].
      * right. exists cs, x, []. repeat split; try assumption.
        -- intros c' Hin. specialize (Hall c' Hin). lra.
        -- intros c' [].
      * left. split; [reflexivity |].
        intros c' Hin. apply in_app_or in Hin as [Hin | [<- | []]]; [auto | lra].
    + destruct (Rlt_dec (rd x) (rd c)) as [L | L].
      * right. exists cs, x, []. repeat split; try lra.
        -- intros c' Hin. rewrite Ecs in Hin.
           apply in_app_or in Hin as [Hin | [<- | Hin]].
           ++ specialize (Hpre c' Hin). lra.
           ++ exact L.
           ++ specialize (Hpost c' Hin). lra.
        -- intros c' [].
      * right. exists pre, c, (post ++ [x]). repeat split; try assumption.
        -- rewrite Ecs, <- app_assoc. reflexivity.
        -- intros c' Hin. apply in_app_or in Hin as [Hin | [<- | []]]; [auto | lra].
Qed.

(** With a first row and at least one further row, all of finite
    coordinates, the scan returns the nearest of the rows after the
    first, the earliest one among equals. *)
Lemma scan_nearest_after_first (c0 : candidate) (rest : list candidate) :
  rest <> [] ->
  forallb finite_cand rest = true ->
  exists pre c post,
    rest = pre ++ c :: post
    /\ scan label (Fin qa) (Fin qo) (table_of (c0 :: rest)) = Returns (label (code c))
    /\ (forall c', In c' pre -> rd c < rd c')
    /\ (forall c', In c' post -> rd c <= rd c').
Proof.
  intros Hne Hfin. rewrite scan_table_of. cbn [tl].
  unfold scan_init, np_pi, R_earth. fin_arith.
  destruct (fold_pick_minimum (2 * PI * 6378137) EmptyString rest Hfin)
    as [[_ Hall] | (pre & c & post & E & Hfold & _ & Hpre & Hpost)].
  - destruct rest as [| c1 rest']; [contradiction |].
    specialize (Hall c1 (or_introl eq_refl)).
    pose proof (gc_dist_bounds qa qo (fin_val (lat c1)) (fin_val (lon c1))) as [_ Hb].
    unfold rdist in Hall. pose proof PI_RGT_0. nra.
  - exists pre, c, post. rewrite Hfold. cbn [snd]. auto.
Qed.

End ScanMinimum.

(** ** The finders on concrete tables *)

Section FinderExamples.

Import Geo.

Lemma dist_to_station_A : dist_to (Fin 0) (Fin 0) station_A = Fin 0.
Proof.
  unfold dist_to, station_A. cbn [lat lon].
  rewrite distance_fin, gc_dist_same. reflexivity.
Qed.

Lemma dist_to_station_B : dist_to (Fin 0) (Fin 0) station_B = Fin (PI * 6378137).
Proof.
  unfold dist_to, station_B. cbn [lat lon].
  rewrite distance_fin, gc_dist_antipode. reflexivity.
Qed.

Lemma half_circumference_lt_init : (Fin (PI * 6378137) <? fst scan_init)%fl = true.
Proof. rewrite <- gc_dist_antipode. apply gc_dist_lt_init. Qed.

Lemma zero_lt_init : (Fin 0 <? fst scan_init)%fl = true.
Proof. rewrite <- (gc_dist_same 0 0). apply gc_dist_lt_init. Qed.

Lemma scan_A_B (label : string -> string) :
  scan label (Fin 0) (Fin 0) (table_of [station_A; station_B])
  = Returns (label "B"%string).
Proof.
  rewrite scan_table_of. cbn [tl fold_left]. unfold pick.
  rewrite dist_to_station_B, half_circumference_lt_init. reflexivity.
Qed.

Lemma scan_JFK_table (label : string -> string) :
  scan label (Fin 0) (Fin 0) (table_of [station_first; station_JFK; station_KJFK])
  = Returns (label "JFK"%string).
Proof.
  rewrite scan_table_of. cbn [tl fold_left]. unfold pick at 2.
  change (dist_to (Fin 0) (Fin 0) station_JFK) with (dist_to (Fin 0) (Fin 0) station_A).
  rewrite dist_to_station_A, zero_lt_init.
  unfold pick.
  change (dist_to (Fin 0) (Fin 0) station_KJFK) with (dist_to (Fin 0) (Fin 0) station_B).
  rewrite dist_to_station_B. cbn [fst code].
  rewrite ltb_fin_false; [reflexivity |].
  pose proof PI_RGT_0. nra.
Qed.

End FinderExamples.

(** The row at index 0 has no influence on either finder. *)
Lemma scan_ignores_first_row (label : string -> string) (la lo : fl)
      (c0 c0' : Geo.candidate) (rest : list Geo.candidate) :
  Geo.scan label la lo (Geo.table_of (c0 :: rest))
  = Geo.scan label la lo (Geo.table_of (c0' :: rest)).
Proof. rewrite !scan_table_of. reflexivity. Qed.

(** C1 (the code departs from the claim).  On the candidate list
    [A at (0,0); B at (0,180)] and the query (0,0), [site_finder] returns
    B and [asos_find] returns KB, although A, at distance 0, is strictly
    nearer than B: the loop starts at index 1 and never looks at the
    first candidate. *)
Theorem nearest_search_misses_first_candidate :
  Geo.site_finder (Fin 0) (Fin 0) (Geo.table_of [Geo.station_A; Geo.station_B])
  = Returns "B"%string
  /\ Geo.asos_find (Fin 0) (Fin 0) (Geo.table_of [Geo.station_A; Geo.station_B])
     = Returns "KB"%string
  /\ (Geo.dist_to (Fin 0) (Fin 0) Geo.station_A
      <? Geo.dist_to (Fin 0) (Fin 0) Geo.station_B)%fl = true.
Proof.
  unfold Geo.site_finder, Geo.asos_find. rewrite !scan_A_B.
  repeat split.
  rewrite dist_to_station_A, dist_to_station_B.
  apply ltb_fin_true. pose proof PI_RGT_0. nra.
Qed.

(** C5 (counterexample).  With no candidate to search, a station file
    that holds only the line of dashes and an empty site log, neither
    finder raises. *)
Lemma empty_table_search_does_not_fail :
  ~ (exists e, Geo.asos_find_file (Fin 40) (Fin (-73)) [Geo.station_first] = Raises e)
  /\ ~ (exists e, Geo.site_finder (Fin 40) (Fin (-73)) (Geo.table_of []) = Raises e).
Proof. split; intros [e H]; discriminate H. Qed.

(** C5 (amended).  [site_finder] returns the empty string on an empty
    site log, and [asos_find] returns it when the station file holds
    only the row that [.drop([0])] removes (equally on empty lists after
    the drop); on a station file without any row [asos_find] fails with
    the [KeyError] of [.drop([0])]. *)
Theorem nearest_search_empty_returns_empty_string (lat_loc lon_loc : fl)
        (first_row : Geo.candidate) :
  Geo.site_finder lat_loc lon_loc (Geo.table_of []) = Returns EmptyString
  /\ Geo.asos_find lat_loc lon_loc (Geo.table_of []) = Returns EmptyString
  /\ Geo.asos_find_file lat_loc lon_loc [first_row] = Returns EmptyString
  /\ Geo.asos_find_file lat_loc lon_loc [] = Raises KeyError.
Proof. repeat split; reflexivity. Qed.

(** ** The identifier returned by [asos_find] *)

Section AsosIdentifier.

Import Geo.

Variables lat_loc lon_loc : fl.
Variable t : table.

Local Abbreviation prefixed_code := (Geo.prefixed_code t).

Lemma scan_body_prefixed (st st' : scan_state) (i : nat) :
  (1 <= i)%nat ->
  prefixed_code (snd st) ->
  scan_body (fun c => String "K" c) lat_loc lon_loc t st i = Returns st' ->
  prefixed_code (snd st').
Proof.
  intros Hi Hst. unfold scan_body, py_index.
  destruct (nth_error (lat_asos t) i); cbn [bind]; [| discriminate].
  destruct (nth_error (lon_asos t) i); cbn [bind]; [| discriminate].
  destruct (_ <? fst st)%fl.
  - destruct (nth_error (stations t) i) as [c |] eqn:Ec; cbn [bind]; [| discriminate].
    intros [= <-]. right. exists i, c. auto.
  - intros [= <-]. exact Hst.
Qed.

Lemma for_each_prefixed (idx : list nat) (st st' : scan_state) :
  Forall (fun i => (1 <= i)%nat) idx ->
  prefixed_code (snd st) ->
  for_each (scan_body (fun c => String "K" c) lat_loc lon_loc t) idx st = Returns st' ->
  prefixed_code (snd st').
Proof.
  revert st. induction idx as [| i idx IH]; intros st Hidx Hst.
  - intros [= <-]. exact Hst.
  - inversion Hidx as [| ? ? Hi Hrest]; subst. cbn [for_each].
    destruct (scan_body _ lat_loc lon_loc t st i) as [st1 |] eqn:E1; cbn [bind];
      [| discriminate].
    apply IH; [exact Hrest |]. exact (scan_body_prefixed st st1 i Hi Hst E1).
Qed.

End AsosIdentifier.

(** C10 (counterexample).  The table lists the codes ALB, JFK and KJFK;
    for a query at the position of JFK, [asos_find] returns KJFK, which
    is one of the stored codes. *)
Lemma asos_find_may_return_a_stored_code :
  Geo.asos_find (Fin 0) (Fin 0)
    (Geo.table_of [Geo.station_first; Geo.station_JFK; Geo.station_KJFK])
  = Returns "KJFK"%string
  /\ In "KJFK"%string
        (Geo.stations
           (Geo.table_of [Geo.station_first; Geo.station_JFK; Geo.station_KJFK])).
Proof.
  split.
  - unfold Geo.asos_find. apply scan_JFK_table.
  - cbn. auto.
Qed.

(** Whatever the table, also one whose columns differ in length, an
    identifier returned by [asos_find] is empty or is the letter K
    followed by a stored code, and then it differs from that code. *)
Lemma asos_find_prefix_invariant (lat_loc lon_loc : fl) (t : Geo.table) (s : string) :
  Geo.asos_find lat_loc lon_loc t = Returns s ->
  s = EmptyString
  \/ exists (i : nat) (c : string),
      (1 <= i)%nat /\ nth_error (Geo.stations t) i = Some c
      /\ s = String "K" c /\ s <> c.
Proof.
  unfold Geo.asos_find, Geo.scan. intros H.
  destruct (for_each _ _ Geo.scan_init) as [st |] eqn:E; cbn [bind] in H;
    [| discriminate].
  injection H as <-.
  assert (Geo.prefixed_code t (snd st)) as [He | (i & c & Hi & Hc & Hs)].
  { eapply for_each_prefixed; [| | exact E].
    - unfold py_range. apply Forall_forall. intros i Hin.
      apply in_seq in Hin. lia.
    - left. reflexivity. }
  - left. exact He.
  - right. exists i, c. repeat split; try assumption.
    rewrite Hs. clear. induction c as [| a c IH]; [discriminate |].
    intros [= Ha Hc]. apply IH. rewrite <- Ha in Hc. exact Hc.
Qed.

(** ** Humidity: [q] *)

Section HumidityFacts.

Import Qe.

Lemma q_vapor_pressure (T_air T_dew p_air : fl) :
  q T_air T_dew p_air
  = ((0.622 * vapor_pressure (T_dew - 273.15)
      / (p_air - 0.378 * vapor_pressure (T_dew - 273.15)))%fl,
     (0.622 * vapor_pressure (T_air - 273.15)
      / (p_air - 0.378 * vapor_pressure (T_air - 273.15)))%fl).
Proof. reflexivity. Qed.

(** The vapor pressure of a finite temperature is finite: where the
    denominator [T + 243.5] vanishes the quotient is [-inf] and its
    exponential is 0. *)
Lemma vapor_pressure_finite (T_c : R) :
  vapor_pressure (Fin T_c) = Fin (fin_val (vapor_pressure (Fin T_c))).
Proof.
  unfold vapor_pressure, e_0.
  destruct (Req_EM_T (T_c + 243.5) 0) as [E | N].
  - rewrite mul_fin, add_fin.
    assert ((Fin (17.67 * T_c) / Fin (T_c + 243.5))%fl = NInf) as ->.
    { unfold div, signed_inf.
      destruct (Req_EM_T (T_c + 243.5) 0) as [_ | N]; [| contradiction].
      destruct (Req_EM_T (17.67 * T_c) 0) as [Z | _]; [lra |].
      destruct (Rlt_dec 0 (17.67 * T_c)) as [L | _]; [lra | reflexivity]. }
    reflexivity.
  - rewrite mul_fin, add_fin, div_fin by assumption. reflexivity.
Qed.

Lemma vapor_pressure_kelvin (T : R) :
  vapor_pressure (Fin T - 273.15) = Fin (e_sat T).
Proof. unfold e_sat. rewrite sub_fin. apply vapor_pressure_finite. Qed.

Lemma e_sat_freezing : e_sat 273.15 = 6.113.
Proof.
  unfold e_sat, vapor_pressure, e_0. fin_arith. cbn [fin_val].
  replace (17.67 * (273.15 - 273.15) / (273.15 - 273.15 + 243.5)) with 0 by lra.
  rewrite exp_0. ring.
Qed.

End HumidityFacts.

(** With the dewpoint at the air temperature both components of [q] are
    one and the same value, whatever it is. *)
Lemma q_saturated_at_dewpoint (T p : fl) :
  fst (Qe.q T T p) = snd (Qe.q T T p).
Proof. rewrite q_vapor_pressure. reflexivity. Qed.

(** ** The resistance network of [lhf] *)

Section ResistanceFacts.

Import Qe.

Lemma c_sw_self (sm : fl) : c_sw sm = (sm / sm)%fl.
Proof. reflexivity. Qed.

Lemma c_sw_finite (x : R) : x <> 0 -> c_sw (Fin x) = Fin 1.
Proof. intros Hx. rewrite c_sw_self. apply div_self. exact Hx. Qed.

Lemma c_sw_zero : c_sw (Fin 0) = NaN.
Proof. rewrite c_sw_self. apply div_zero_zero. Qed.

(** Stomatal resistance once [c_sw] is 1. *)
Lemma r_st_finite (x s : R) :
  x <> 0 ->
  r_st (Fin x) (Fin s) = Fin (1e2 / 1 + (1e4 - 1e2) / 1 * (1 - tanh (s / 25))).
Proof.
  intros Hx. unfold r_st, r_st_min, r_st_max, c_sd.
  rewrite (c_sw_finite x Hx). fin_arith. reflexivity.
Qed.

Lemma r_st_positive (s : R) :
  0 < 1e2 / 1 + (1e4 - 1e2) / 1 * (1 - tanh (s / 25)).
Proof. pose proof (tanh_lt_1 (s / 25)). nra. Qed.

Lemma r_st_zero (S_d : fl) : r_st (Fin 0) S_d = NaN.
Proof. unfold r_st. rewrite c_sw_zero. reflexivity. Qed.

Lemma r_c_no_leaves (x s : R) : x <> 0 -> r_c (Fin x) (Fin s) (Fin 0) = PInf.
Proof.
  intros Hx. unfold r_c. rewrite (r_st_finite x s Hx).
  apply div_fin_zero_pos, r_st_positive.
Qed.

Lemma r_c_finite (x s l : R) :
  x <> 0 -> l <> 0 ->
  r_c (Fin x) (Fin s) (Fin l)
  = Fin ((1e2 / 1 + (1e4 - 1e2) / 1 * (1 - tanh (s / 25))) / l).
Proof.
  intros Hx Hl. unfold r_c. rewrite (r_st_finite x s Hx).
  apply div_fin. exact Hl.
Qed.

Lemma r_soil_finite (x : R) : x <> 0 -> r_soil (Fin x) = Fin 437.
Proof.
  intros Hx. unfold r_soil, sm_max, coef_a, coef_b, coef_c.
  rewrite nanmax_single, div_self by exact Hx.
  rewrite np_power_one by lra. fin_arith. f_equal. lra.
Qed.

Lemma r_soil_zero : r_soil (Fin 0) = NaN.
Proof.
  unfold r_soil, sm_max, coef_b. rewrite nanmax_single, div_zero_zero.
  rewrite np_power_nan by lra. reflexivity.
Qed.

End ResistanceFacts.

(** C2 (counterexample).  For soil moisture 0.3 and a maximum of 0.4 the
    specification's normalisation is 0.3/0.4; [lhf] normalises to
    0.3/0.3 = 1. *)
Lemma lhf_c_sw_differs_from_supplied_maximum :
  Qe.c_sw (Fin 0.3) = Fin 1
  /\ Qe.c_sw (Fin 0.3) <> Qe.spec_c_sw (Fin 0.3) (Fin 0.4).
Proof.
  assert (Qe.c_sw (Fin 0.3) = Fin 1) as E by (apply c_sw_finite; lra).
  split; [exact E |].
  rewrite E. unfold Qe.spec_c_sw. rewrite div_fin by lra.
  intros [= H]. lra.
Qed.

(** C2 (amended).  [lhf] has no input for the maximum soil moisture: it
    takes the maximum of the soil moisture it is given, which for a
    scalar is that value, so the normalised soil water content of every
    finite non-zero soil moisture is 1. *)
Theorem lhf_normalises_by_its_own_soil_moisture (x : R) :
  x <> 0 ->
  Qe.sm_max (Fin x) = Fin x
  /\ Qe.c_sw (Fin x) = (Fin x / Fin x)%fl
  /\ Qe.c_sw (Fin x) = Fin 1.
Proof.
  intros Hx. repeat split.
  apply c_sw_finite. exact Hx.
Qed.

(** C2 (witness): soil moisture 0.3. *)
Lemma lhf_normalises_by_its_own_soil_moisture_witness :
  Qe.sm_max (Fin 0.3) = Fin 0.3
  /\ Qe.c_sw (Fin 0.3) = (Fin 0.3 / Fin 0.3)%fl
  /\ Qe.c_sw (Fin 0.3) = Fin 1.
Proof. apply (lhf_normalises_by_its_own_soil_moisture 0.3). lra. Defined.




(** ** The flux: [lhf] *)

Section FluxFacts.

Import Qe.

(** Both humidities of [q(T, T, p)] away from the singular pressure. *)
Lemma q_finite_at_dewpoint (T p : R) :
  p - 0.378 * e_sat T <> 0 ->
  q (Fin T) (Fin T) (Fin p)
  = (Fin (0.622 * e_sat T / (p - 0.378 * e_sat T)),
     Fin (0.622 * e_sat T / (p - 0.378 * e_sat T))).
Proof.
  intros Hp. rewrite q_vapor_pressure, vapor_pressure_kelvin.
  fin_arith. reflexivity.
Qed.

(** At the singular pressure both humidities are infinite. *)
Lemma q_singular_pressure :
  q (Fin 273.15) (Fin 273.15) (Fin (0.378 * 6.113)) = (PInf, PInf).
Proof.
  rewrite q_vapor_pressure, vapor_pressure_kelvin, e_sat_freezing.
  fin_arith.
  replace (0.378 * 6.113 - 0.378 * 6.113) with 0 by ring.
  rewrite div_fin_zero_pos by lra. reflexivity.
Qed.

Lemma rho_finite (T p : R) : T <> 0 -> rho (Fin T) (Fin p) = Fin (p * 100 / (287.05 * T)).
Proof.
  intros HT. unfold rho, R_gas.
  assert (287.05 * T <> 0) by (intros E; apply HT; lra).
  fin_arith. reflexivity.
Qed.

End FluxFacts.

(** C6 (counterexample).  All three temperatures are 273.15 K and every
    other input is positive, but the pressure is 0.378 * 6.113 hPa, where
    the denominator of the specific humidity vanishes: both humidities
    are infinite, their difference is [nan], and so is the flux. *)
Lemma lhf_nan_at_singular_pressure :
  Qe.lhf (Fin 273.15) (Fin 273.15) (Fin 273.15) (Fin (0.378 * 6.113))
         (Fin 50) (Fin 0.3) (Fin 0) (Fin 2) = NaN.
Proof.
  unfold Qe.lhf. rewrite q_singular_pressure. cbv beta iota zeta.
  change (PInf - PInf)%fl with NaN.
  rewrite !mul_nan_r. reflexivity.
Qed.

(** With the three temperatures equal and the pressure away from
    [0.378 * e(T)], both humidity deficits vanish. *)
Lemma lhf_zero_core (T p r_av sm S_d LAI : R) :
  0 < T -> 0 < p -> p <> 0.378 * Qe.e_sat T ->
  0 < r_av -> 0 < sm -> 0 < LAI ->
  Qe.lhf (Fin T) (Fin T) (Fin T) (Fin p) (Fin r_av) (Fin sm) (Fin S_d) (Fin LAI)
  = Fin 0.
Proof.
  intros HT Hp Hsing Hr Hsm Hlai. unfold Qe.lhf.
  assert (p - 0.378 * Qe.e_sat T <> 0) as Hden by (intros E; apply Hsing; lra).
  rewrite (q_finite_at_dewpoint T p Hden). cbv beta iota zeta.
  rewrite rho_finite by lra.
  rewrite r_c_finite, r_soil_finite by lra.
  pose proof (r_st_positive S_d) as Hst.
  set (rst := 1e2 / 1 + (1e4 - 1e2) / 1 * (1 - tanh (S_d / 25))) in *.
  assert (0 < rst / LAI) as Hrc by (apply Rdiv_lt_0_compat; assumption).
  assert (r_av + rst / LAI <> 0) by lra.
  unfold Qe.L_v. fin_arith. f_equal.
  unfold Rdiv. ring.
Qed.

(** The scenario of the specification: 288.15 K at 1013.25 hPa is far from
    the singular pressure. *)
Lemma e_sat_scenario_bound : Qe.e_sat 288.15 < 6.113 * 9.
Proof.
  unfold Qe.e_sat, Qe.vapor_pressure, Qe.e_0. fin_arith. cbn [fin_val].
  apply Rmult_lt_compat_l; [lra |].
  apply Rlt_le_trans with (exp (1 + 1)).
  - apply exp_increasing. lra.
  - rewrite exp_plus. pose proof exp_le_3. pose proof (exp_pos 1). nra.
Qed.


(** ** Quality masking of the satellite window: [s_d] *)

Section MaskFacts.

Import Sd.

Lemma count_nan_all (vs : list fl) :
  count_nan vs = List.length vs -> forall v, In v vs -> isnan v = true.
Proof.
  unfold count_nan. induction vs as [| a vs IH]; intros H v Hin.
  - destruct Hin.
  - cbn [filter List.length] in H. destruct (isnan a) eqn:Ea.
    + cbn [List.length] in H. injection H as H.
      destruct Hin as [<- | Hin]; [exact Ea | exact (IH H v Hin)].
    + pose proof (filter_length_le isnan vs). lia.
Qed.

Lemma mask_items_length (vs : list fl) (dqf : list Z) :
  List.length (mask_items vs dqf) = List.length vs.
Proof.
  revert dqf. induction vs as [| v vs IH]; intros [| f dqf]; cbn; auto.
Qed.

Lemma mask_items_all_flagged (vs : list fl) (dqf : list Z) :
  List.length dqf = List.length vs ->
  (forall f, In f dqf -> f <> 0%Z) ->
  mask_items vs dqf = repeat NaN (List.length vs).
Proof.
  revert dqf. induction vs as [| v vs IH]; intros [| f dqf] Hlen Hall;
    try discriminate; [reflexivity |].
  cbn [mask_items List.length repeat]. unfold mask_pixel.
  destruct (Z.eqb_spec f 0) as [E | _].
  - exfalso. apply (Hall f); [left; reflexivity | exact E].
  - f_equal. apply IH; [cbn in Hlen; lia |].
    intros g Hg. apply Hall. right. exact Hg.
Qed.

Lemma count_nan_repeat (n : nat) : count_nan (repeat NaN n) = n.
Proof. unfold count_nan. induction n as [| n IH]; cbn; [reflexivity | now rewrite IH]. Qed.

Lemma mask_items_nth (vs : list fl) (dqf : list Z) (i : nat) (v : fl) (f : Z) :
  nth_error vs i = Some v -> nth_error dqf i = Some f ->
  nth_error (mask_items vs dqf) i = Some (mask_pixel v f).
Proof.
  revert dqf i. induction vs as [| a vs IH]; intros [| g dqf] [| i]; cbn;
    try discriminate.
  - intros [= ->] [= ->]. reflexivity.
  - apply IH.
Qed.

End MaskFacts.

(** C4 (counterexample).  A window of two pixels, both flagged invalid,
    comes out as zeros and not as missing values. *)
Lemma s_d_all_flagged_window_is_zero :
  Sd.items (Sd.s_d_data (Sd.Array2 1 2 [Fin 5; Fin 7]) [1%Z; 2%Z]) = [Fin 0; Fin 0]
  /\ Sd.items (Sd.s_d_data (Sd.Array2 1 2 [Fin 5; Fin 7]) [1%Z; 2%Z]) <> [NaN; NaN].
Proof. split; [reflexivity | discriminate]. Qed.

Lemma mask_items_all_missing (vs : list fl) (dqf : list Z) :
  List.length dqf = List.length vs ->
  (forall k v f, nth_error vs k = Some v -> nth_error dqf k = Some f ->
                 f <> 0%Z \/ isnan v = true) ->
  Sd.mask_items vs dqf = repeat NaN (List.length vs).
Proof.
  revert dqf. induction vs as [| v vs IH]; intros [| f dqf] Hlen Hall;
    try discriminate; [reflexivity |].
  cbn [Sd.mask_items List.length repeat]. f_equal.
  - unfold Sd.mask_pixel. destruct (Z.eqb_spec f 0) as [E | _]; [| reflexivity].
    destruct (Hall 0%nat v f eq_refl eq_refl) as [N | N]; [contradiction |].
    destruct v; try discriminate. reflexivity.
  - apply IH; [cbn in Hlen; lia |].
    intros k w g Hw Hg. exact (Hall (S k) w g Hw Hg).
Qed.

(** C4 (amended).  [s_d] returns the masked window, in which every
    flagged pixel is missing, exactly while the window holds at least
    one pixel that is unflagged and not [nan]; a window in which every
    pixel is flagged or already [nan] is returned as zeros. *)
Theorem s_d_missing_pixels (data : Sd.array2) (dqf : list Z) :
  Sd.well_shaped data ->
  List.length dqf = List.length (Sd.items data) ->
  ((forall k v f, nth_error (Sd.items data) k = Some v ->
                  nth_error dqf k = Some f -> f <> 0%Z \/ isnan v = true) ->
   Sd.s_d_data data dqf = Sd.zeros (Sd.shape0 data) (Sd.shape1 data))
  /\ (forall k v, nth_error (Sd.items data) k = Some v -> isnan v = false ->
      nth_error dqf k = Some 0%Z ->
      Sd.s_d_data data dqf
      = Sd.Array2 (Sd.shape0 data) (Sd.shape1 data)
                  (Sd.mask_items (Sd.items data) dqf)
      /\ forall i f, nth_error dqf i = Some f -> f <> 0%Z ->
           nth_error (Sd.items (Sd.s_d_data data dqf)) i = Some NaN).
Proof.
  intros Hshape Hlen. unfold Sd.well_shaped in Hshape. split.
  - intros Hall. unfold Sd.s_d_data. cbn [Sd.items Sd.shape0 Sd.shape1].
    rewrite (mask_items_all_missing _ _ Hlen Hall), count_nan_repeat, Hshape.
    rewrite Nat.eqb_refl. reflexivity.
  - intros k v Hk Hv Hfk.
    assert (Sd.s_d_data data dqf
            = Sd.Array2 (Sd.shape0 data) (Sd.shape1 data)
                        (Sd.mask_items (Sd.items data) dqf)) as Hkept.
    { unfold Sd.s_d_data. cbn [Sd.items Sd.shape0 Sd.shape1].
      destruct (Nat.eqb_spec (Sd.count_nan (Sd.mask_items (Sd.items data) dqf))
                  (Sd.shape0 data * Sd.shape1 data)) as [E | _]; [| reflexivity].
      exfalso. rewrite <- Hshape, <- (mask_items_length (Sd.items data) dqf) in E.
      pose proof (count_nan_all _ E (Sd.mask_pixel v 0)) as Hnan.
      cbn in Hnan. rewrite Hnan in Hv; [discriminate |].
      apply (nth_error_In _ k). exact (mask_items_nth _ _ k v 0%Z Hk Hfk). }
    split; [exact Hkept |].
    intros i f Hi Hf. rewrite Hkept. cbn [Sd.items].
    destruct (nth_error (Sd.items data) i) as [w |] eqn:Ew.
    + rewrite (mask_items_nth _ _ i w f Ew Hi). unfold Sd.mask_pixel.
      destruct (Z.eqb_spec f 0); [contradiction | reflexivity].
    + apply nth_error_None in Ew.
      assert (i < List.length dqf)%nat
        by (apply nth_error_Some; rewrite Hi; discriminate).
      lia.
Qed.

(** C4 (witness): a window of two pixels; with the first already [nan]
    and the second flagged it comes back as zeros, with the first valid
    and the second flagged the second comes back missing. *)
Lemma s_d_missing_pixels_witness :
  Sd.s_d_data (Sd.Array2 1 2 [NaN; Fin 7]) [0%Z; 3%Z] = Sd.zeros 1 2
  /\ Sd.s_d_data (Sd.Array2 1 2 [Fin 5; Fin 7]) [0%Z; 2%Z]
     = Sd.Array2 1 2 [Fin 5; NaN]
  /\ nth_error (Sd.items (Sd.s_d_data (Sd.Array2 1 2 [Fin 5; Fin 7]) [0%Z; 2%Z])) 1
     = Some NaN.
Proof.
  split.
  - apply (proj1 (s_d_missing_pixels (Sd.Array2 1 2 [NaN; Fin 7]) [0%Z; 3%Z]
                    eq_refl eq_refl)).
    intros k v f Hv Hf. destruct k as [| [| k]]; cbn in Hv, Hf.
    + injection Hv as <-. right. reflexivity.
    + injection Hf as <-. left. discriminate.
    + destruct k; discriminate.
  - pose proof (proj2 (s_d_missing_pixels (Sd.Array2 1 2 [Fin 5; Fin 7]) [0%Z; 2%Z]
                         eq_refl eq_refl)
                  0%nat (Fin 5) eq_refl eq_refl eq_refl) as [Hkept Hflag].
    split; [exact Hkept |].
    apply (Hflag 1%nat 2%Z eq_refl). discriminate.
Defined.

(** ** Square truncation: [main] of [grid/smap.py] *)

Section SquareFacts.

Import Smap.

Variable cell : Type.

Lemma py_slice_to_length {A : Type} (l : list A) (k : Z) :
  List.length (py_slice_to l k)
  = if (k <? 0)%Z then Z.to_nat (Z.of_nat (List.length l) + k)
    else Nat.min (Z.to_nat k) (List.length l).
Proof.
  unfold py_slice_to. destruct (k <? 0)%Z eqn:E; rewrite length_firstn.
  - apply Z.ltb_lt in E. lia.
  - reflexivity.
Qed.

(** Latitude longer: the branch [dim_diff > 0] cuts the latitude axis
    down to the length of the longitude axis. *)
Lemma main_square_lat_longer (arr : dataset cell) :
  (List.length (lon_axis arr) < List.length (lat_axis arr))%nat ->
  let '(la, lo, _) := main_square arr in
  List.length la = List.length lo /\ List.length lo = List.length (lon_axis arr).
Proof.
  intros H. unfold main_square.
  destruct (Z.gtb_spec (Z.of_nat (List.length (lat_axis arr))
                        - Z.of_nat (List.length (lon_axis arr))) 0) as [G | G];
    [| lia].
  rewrite py_slice_to_length.
  destruct (Z.ltb_spec (- (Z.of_nat (List.length (lat_axis arr))
                           - Z.of_nat (List.length (lon_axis arr)))) 0); lia.
Qed.

(** Longitude longer: the branch [dim_diff < 0] slices with
    [:-dim_diff], a positive bound, and keeps the first
    [len(lon) - len(lat)] longitudes. *)
Lemma main_square_lon_longer (arr : dataset cell) :
  (List.length (lat_axis arr) < List.length (lon_axis arr))%nat ->
  let '(la, lo, _) := main_square arr in
  List.length la = List.length (lat_axis arr)
  /\ List.length lo = (List.length (lon_axis arr) - List.length (lat_axis arr))%nat.
Proof.
  intros H. unfold main_square.
  destruct (Z.gtb_spec (Z.of_nat (List.length (lat_axis arr))
                        - Z.of_nat (List.length (lon_axis arr))) 0) as [G | G];
    [lia |].
  destruct (Z.ltb_spec (Z.of_nat (List.length (lat_axis arr))
                        - Z.of_nat (List.length (lon_axis arr))) 0) as [L | L];
    [| lia].
  rewrite py_slice_to_length.
  destruct (Z.ltb_spec (- (Z.of_nat (List.length (lat_axis arr))
                           - Z.of_nat (List.length (lon_axis arr)))) 0); lia.
Qed.

End SquareFacts.

(** C9 (the code departs from the claim).  With four latitudes and three
    longitudes the axes come back with three entries each; with three
    latitudes and four longitudes the latitude axis keeps its three
    entries and the longitude axis is cut to a single one, as is every
    row of the data. *)
Theorem main_square_longitude_longer_not_square :
  Smap.main_square Smap.tall_grid
  = ([Fin 40; Fin 41; Fin 42], [Fin (-75); Fin (-74); Fin (-73)],
     [[0; 1; 2]; [10; 11; 12]; [20; 21; 22]]%nat)
  /\ Smap.main_square Smap.wide_grid
     = ([Fin 40; Fin 41; Fin 42], [Fin (-75)], [[0]; [10]; [20]]%nat).
Proof. split; reflexivity. Qed.

(** ** Hourly alignment: [csv_reader] *)

Section AlignFacts.

Import Reader.

Variable row : Type.

(** In exact arithmetic the last value of [np.linspace] is the product
    as well, so all values have one form. *)
Lemma np_linspace_exact (D : Z) (k : nat) :
  np_linspace D (S (S k))
  = map (fun i => (Z.of_nat i * D / Z.of_nat (S k))%Z) (seq 0 (S (S k))).
Proof.
  unfold np_linspace. cbv zeta.
  replace (Z.of_nat (S (S k)) - 1)%Z with (Z.of_nat (S k)) by lia.
  assert ((0 <? Z.of_nat (S k))%Z = true) as -> by (apply Z.ltb_lt; lia).
  assert ((1 <? S (S k))%nat = true) as -> by (apply Nat.ltb_lt; lia).
  rewrite (seq_S (S k)), !map_app. cbn [map Nat.add]. rewrite removelast_last.
  f_equal. f_equal. rewrite (Z.mul_comm (Z.of_nat (S k)) D), Z.div_mul by lia.
  reflexivity.
Qed.

(** For a window that does not end before it starts, the number of
    periods is the number of whole hours in it plus two. *)
Lemma periods_window (start_date end_date : Z) :
  (start_date <= end_date)%Z ->
  Z.to_nat (periods (end_date + hour - start_date))
  = S (S (Z.to_nat ((end_date - start_date) / hour)))
  /\ (periods (end_date + hour - start_date) <? 0)%Z = false.
Proof.
  intros Hle. unfold periods.
  assert (0 < hour)%Z as Hh by (unfold hour; lia).
  rewrite Z.quot_div_nonneg by lia.
  replace (end_date + hour - start_date + hour)%Z
    with (end_date - start_date + 2 * hour)%Z by ring.
  rewrite Z.div_add by lia.
  assert (0 <= (end_date - start_date) / hour)%Z by (apply Z.div_pos; lia).
  split; [lia | apply Z.ltb_ge; lia].
Qed.

Lemma find_filter_implied {A : Type} (p r : A -> bool) (l : list A) :
  (forall x, p x = true -> r x = true) ->
  find p (filter r l) = find p l.
Proof.
  intros Himp. induction l as [| a l IH]; [reflexivity |].
  cbn [filter find]. destruct (p a) eqn:Ep.
  - rewrite (Himp a Ep). cbn [find]. rewrite Ep. reflexivity.
  - destruct (r a); [cbn [find]; rewrite Ep |]; exact IH.
Qed.

Lemma filter_key_none (data : list (sample row)) (d : Z) :
  ~ In d (map fst data) -> filter (fun s => (fst s =? d)%Z) data = [].
Proof.
  induction data as [| a data IH]; intros Hn; [reflexivity |].
  cbn [filter]. destruct (Z.eqb_spec (fst a) d) as [E | _].
  - exfalso. apply Hn. left. exact E.
  - apply IH. intros Hin. apply Hn. right. exact Hin.
Qed.

(** With distinct timestamps at most one row matches an instant. *)
Lemma filter_key_nodup (data : list (sample row)) (d : Z) :
  NoDup (map fst data) ->
  filter (fun s => (fst s =? d)%Z) data
  = match find (fun s => (fst s =? d)%Z) data with
    | Some s => [s]
    | None => []
    end.
Proof.
  induction data as [| a data IH]; intros Hnd; [reflexivity |].
  inversion Hnd as [| ? ? Hnotin Hnd']; subst.
  cbn [filter find]. destruct (Z.eqb_spec (fst a) d) as [E | _].
  - f_equal. apply filter_key_none. rewrite <- E. exact Hnotin.
  - apply IH. exact Hnd'.
Qed.

Lemma nodup_keys_filter (r : sample row -> bool) (data : list (sample row)) :
  NoDup (map fst data) -> NoDup (map fst (filter r data)).
Proof.
  induction data as [| a data IH]; intros Hnd; [constructor |].
  inversion Hnd as [| ? ? Hnotin Hnd']; subst.
  cbn [filter]. destruct (r a); [| exact (IH Hnd')].
  cbn [map]. constructor; [| exact (IH Hnd')].
  intros Hin. apply Hnotin.
  apply in_map_iff in Hin as (s & Es & Hs). apply filter_In in Hs as [Hs _].
  apply in_map_iff. exists s. auto.
Qed.

Lemma merge_right_nodup (data : list (sample row)) (date_df : list Z) :
  NoDup (map fst data) ->
  merge_right data date_df = map (fun d => (d, sample_at data d)) date_df.
Proof.
  intros Hnd. unfold merge_right.
  set (rows := fun d : Z => match filter (fun s => (fst s =? d)%Z) data with
                            | [] => [(d, None)]
                            | hits => map (fun s => (d, Some (snd s))) hits
                            end).
  induction date_df as [| d ds IH]; [reflexivity |].
  change (flat_map rows (d :: ds)) with (rows d ++ flat_map rows ds).
  rewrite IH. unfold rows at 1. rewrite (filter_key_nodup data d Hnd).
  unfold sample_at. cbn [map].
  destruct (find (fun s => (fst s =? d)%Z) data);
    cbn [map app option_map]; reflexivity.
Qed.

End AlignFacts.

Section AlignHourly.

Import Reader.

Variable row : Type.

(** Rows already in ascending order of time are left as they are. *)
Lemma sort_values_monotone (g : nat -> Z) (f : nat -> option row) (m a : nat) :
  (forall i, (g i <= g (S i))%Z) ->
  sort_values (map (fun i => (g i, f i)) (seq a m))
  = map (fun i => (g i, f i)) (seq a m).
Proof.
  intros Hg. revert a. induction m as [| m IH]; intros a; [reflexivity |].
  cbn [seq map]. unfold sort_values in *. cbn [fold_right]. rewrite IH.
  destruct m as [| m]; [reflexivity |].
  cbn [seq map insert_by_time fst].
  destruct (Z.leb_spec (g a) (g (S a))) as [_ | L]; [reflexivity |].
  specialize (Hg a). lia.
Qed.

Lemma increasing_steps (g : nat -> Z) :
  (forall i, (g i < g (S i))%Z) ->
  forall i j, (i < j)%nat -> (g i < g j)%Z.
Proof.
  intros Hg i j Hij. induction j as [| j IH]; [lia |].
  destruct (Nat.eq_dec i j) as [-> | Hne]; [apply Hg |].
  specialize (Hg j). assert (g i < g j)%Z by (apply IH; lia). lia.
Qed.

Lemma map_seq_ascending (g : nat -> Z) (f : nat -> option row) (m a : nat) :
  (forall i, (g i < g (S i))%Z) ->
  ascending (map (fun i => (g i, f i)) (seq a m)).
Proof.
  intros Hg. unfold ascending. revert a.
  induction m as [| m IH]; intros a; cbn [seq map]; constructor.
  - apply IH.
  - apply Forall_forall. intros x Hx.
    apply in_map_iff in Hx as (j & <- & Hj). apply in_seq in Hj. cbn [fst].
    apply (increasing_steps g Hg). lia.
Qed.

(** Inside the window the date filter removes no matching sample. *)
Lemma sample_at_filtered (data : list (sample row)) (lo hi t : Z) :
  (lo <= t <= hi)%Z ->
  sample_at (filter (fun s => (lo <=? fst s)%Z && (fst s <=? hi)%Z) data) t
  = sample_at data t.
Proof.
  intros Ht. unfold sample_at. f_equal. apply find_filter_implied.
  intros x Hx. apply Z.eqb_eq in Hx. rewrite Hx.
  apply andb_true_intro. split; apply Z.leb_le; lia.
Qed.

(** The rows of the result for samples of distinct timestamps and a
    window with [k] whole hours in it: the instants that [pd.date_range]
    spaces over the window lengthened by an hour, the last one left
    out, each with the sample of the file at that instant. *)
Lemma csv_reader_align_instants (data : list (sample row))
      (start_date end_date : Z) (k : nat) :
  (start_date <= end_date)%Z ->
  k = Z.to_nat ((end_date - start_date) / hour) ->
  NoDup (map fst data) ->
  csv_reader_align data start_date end_date
  = Returns
      (map (fun i =>
              ((start_date
                + Z.of_nat i * (end_date + hour - start_date) / Z.of_nat (S k))%Z,
               sample_at data
                 (start_date
                  + Z.of_nat i * (end_date + hour - start_date) / Z.of_nat (S k))%Z))
           (seq 0 (S k))).
Proof.
  intros Hle Hk Hnd.
  destruct (periods_window start_date end_date Hle) as [Hn Hneg].
  rewrite <- Hk in Hn.
  assert (0 < hour)%Z as Hh by (unfold hour; lia).
  unfold csv_reader_align, date_range. cbv zeta.
  rewrite Hneg, Hn. cbn [bind].
  rewrite np_linspace_exact, map_map.
  rewrite merge_right_nodup by (apply nodup_keys_filter; exact Hnd).
  rewrite map_map.
  rewrite (sort_values_monotone
             (fun i => (start_date
                        + Z.of_nat i * (end_date + hour - start_date)
                          / Z.of_nat (S k))%Z)
             (fun i => sample_at _
                         (start_date
                          + Z.of_nat i * (end_date + hour - start_date)
                            / Z.of_nat (S k))%Z)).
  - rewrite (seq_S (S k)), map_app. cbn [map]. rewrite removelast_last.
    f_equal. apply map_ext_in. intros i Hi. apply in_seq in Hi. f_equal.
    apply sample_at_filtered.
    assert (0 <= Z.of_nat i * (end_date + hour - start_date) / Z.of_nat (S k))%Z
      by (apply Z.div_pos; nia).
    assert (Z.of_nat i * (end_date + hour - start_date) / Z.of_nat (S k)
            <= end_date + hour - start_date)%Z
      by (apply Z.div_le_upper_bound; nia).
    lia.
  - intros i. apply Z.add_le_mono_l. apply Z.div_le_mono; nia.
Qed.

(** The instants of [csv_reader_align_instants] are more than a
    nanosecond apart. *)
Lemma instants_increase (start_date end_date : Z) (k i : nat) :
  (start_date <= end_date)%Z ->
  k = Z.to_nat ((end_date - start_date) / hour) ->
  (start_date + Z.of_nat i * (end_date + hour - start_date) / Z.of_nat (S k)
   < start_date
     + Z.of_nat (S i) * (end_date + hour - start_date) / Z.of_nat (S k))%Z.
Proof.
  intros Hle Hk.
  assert (0 < hour)%Z as Hh by (unfold hour; lia).
  assert (0 <= (end_date - start_date) / hour)%Z as Hq by (apply Z.div_pos; lia).
  pose proof (Z.mul_div_le (end_date - start_date) hour Hh) as Hm.
  assert (Z.of_nat (S k) <= end_date + hour - start_date)%Z as HD.
  { subst k. rewrite Nat2Z.inj_succ, Z2Nat.id by exact Hq.
    unfold hour in *. lia. }
  apply Z.add_lt_mono_l.
  apply Z.lt_le_trans
    with ((Z.of_nat i * (end_date + hour - start_date) + 1 * Z.of_nat (S k))
          / Z.of_nat (S k))%Z.
  - rewrite Z.div_add by lia. lia.
  - apply Z.div_le_mono; [lia |]. rewrite Nat2Z.inj_succ with (n := i). nia.
Qed.

(** On a window of [n] whole hours the instants are the hours. *)
Lemma csv_reader_align_rows (data : list (sample row))
      (start_date end_date : Z) (n : nat) :
  (end_date - start_date = hour * Z.of_nat n)%Z ->
  NoDup (map fst data) ->
  csv_reader_align data start_date end_date
  = Returns (hourly_rows data start_date n).
Proof.
  intros Hwin Hnd.
  assert (0 < hour)%Z as Hh by (unfold hour; lia).
  assert (n = Z.to_nat ((end_date - start_date) / hour)) as Hk.
  { rewrite Hwin, Z.mul_comm, Z.div_mul by lia. lia. }
  rewrite (csv_reader_align_instants data start_date end_date n) by (nia || assumption).
  unfold hourly_rows. f_equal. apply map_ext. intros i. cbv zeta.
  assert (Z.of_nat i * (end_date + hour - start_date) / Z.of_nat (S n)
          = hour * Z.of_nat i)%Z as ->; [| reflexivity].
  replace (Z.of_nat i * (end_date + hour - start_date))%Z
    with (hour * Z.of_nat i * Z.of_nat (S n))%Z by nia.
  apply Z.div_mul. lia.
Qed.

End AlignHourly.




(* ================================================================== *)
(** * Further properties of the great-circle distance and the finders *)
(* ================================================================== *)

Lemma gc_dist_sym (la1 lo1 la2 lo2 : R) :
  Geo.gc_dist la1 lo1 la2 lo2 = Geo.gc_dist la2 lo2 la1 lo1.
Proof.
  unfold Geo.gc_dist, Geo.hav.
  replace ((la1 - la2) * Geo.deg) with (- ((la2 - la1) * Geo.deg)) by ring.
  replace ((lo1 - lo2) * Geo.deg) with (- ((lo2 - lo1) * Geo.deg)) by ring.
  rewrite !cos_neg.
  rewrite (Rmult_comm (cos (la2 * Geo.deg)) (cos (la1 * Geo.deg))).
  reflexivity.
Qed.


(** X2.  The distance of a point of finite coordinates to itself is 0. *)
Theorem distance_to_itself (la lo : R) :
  Geo.distance (Fin la) (Fin lo) (Fin la) (Fin lo) = Fin 0.
Proof. rewrite distance_fin, gc_dist_same. reflexivity. Qed.

Lemma add_nan_r (a : fl) : (a + NaN)%fl = NaN.
Proof. destruct a; reflexivity. Qed.

Lemma sub_nan_r (a : fl) : (a - NaN)%fl = NaN.
Proof. destruct a; reflexivity. Qed.

Lemma distance_nan_lat (lon_loc la lo : fl) : Geo.distance NaN lon_loc la lo = NaN.
Proof. unfold Geo.distance. rewrite sub_nan_r. reflexivity. Qed.

Lemma distance_nan_lon (lat_loc la lo : fl) : Geo.distance lat_loc NaN la lo = NaN.
Proof.
  unfold Geo.distance. rewrite (sub_nan_r lo).
  cbn [mul np_cos]. rewrite (sub_nan_r 1). rewrite mul_nan_r.
  cbn [div]. rewrite add_nan_r. reflexivity.
Qed.

Lemma fold_pick_nan (label : string -> string) (lat_loc lon_loc : fl)
      (cs : list Geo.candidate) (st : Geo.scan_state) :
  (forall c, Geo.dist_to lat_loc lon_loc c = NaN) ->
  fold_left (Geo.pick label lat_loc lon_loc) cs st = st.
Proof.
  intros Hnan. induction cs as [| c cs IH]; [reflexivity |].
  cbn [fold_left]. unfold Geo.pick at 2. rewrite (Hnan c). exact IH.
Qed.

(** X4.  A query with a missing ([nan]) latitude or longitude selects no
    row: both finders return the empty string, whatever the table. *)
Theorem finders_nan_query_returns_empty (lat_loc lon_loc : fl)
        (cs : list Geo.candidate) :
  lat_loc = NaN \/ lon_loc = NaN ->
  Geo.asos_find lat_loc lon_loc (Geo.table_of cs) = Returns EmptyString
  /\ Geo.site_finder lat_loc lon_loc (Geo.table_of cs) = Returns EmptyString.
Proof.
  intros H. unfold Geo.asos_find, Geo.site_finder. rewrite !scan_table_of.
  rewrite !fold_pick_nan; [split; reflexivity | |];
    intros c; unfold Geo.dist_to;
    destruct H as [-> | ->]; (apply distance_nan_lat || apply distance_nan_lon).
Qed.

(** X4 (witness): a missing latitude and the table of A and B. *)
Lemma finders_nan_query_returns_empty_witness :
  Geo.asos_find NaN (Fin 0) (Geo.table_of [Geo.station_A; Geo.station_B])
  = Returns EmptyString
  /\ Geo.site_finder NaN (Fin 0) (Geo.table_of [Geo.station_A; Geo.station_B])
     = Returns EmptyString.
Proof.
  apply (finders_nan_query_returns_empty NaN (Fin 0)
           [Geo.station_A; Geo.station_B]).
  left. reflexivity.
Defined.

(** X6.  Replacing the first row of the table by any other row changes
    the result of neither finder. *)
Theorem finders_ignore_first_row (lat_loc lon_loc : fl)
        (c0 c0' : Geo.candidate) (rest : list Geo.candidate) :
  Geo.asos_find lat_loc lon_loc (Geo.table_of (c0 :: rest))
  = Geo.asos_find lat_loc lon_loc (Geo.table_of (c0' :: rest))
  /\ Geo.site_finder lat_loc lon_loc (Geo.table_of (c0 :: rest))
     = Geo.site_finder lat_loc lon_loc (Geo.table_of (c0' :: rest)).
Proof. split; apply scan_ignores_first_row. Qed.

(** A row whose latitude or longitude is missing is never selected: its
    distance is [nan] and [nan < dists] is false. *)
Lemma distance_nan_station_lat (lat_loc lon_loc lo : fl) :
  Geo.distance lat_loc lon_loc NaN lo = NaN.
Proof.
  unfold Geo.distance. cbn [sub neg add mul np_cos div].
  rewrite mul_nan_r. cbn [mul]. reflexivity.
Qed.

Lemma pick_nan_lat (label : string -> string) (lat_loc lon_loc : fl)
      (st : Geo.scan_state) (c : Geo.candidate) :
  Geo.lat c = NaN -> Geo.pick label lat_loc lon_loc st c = st.
Proof.
  intros E. unfold Geo.pick, Geo.dist_to. rewrite E, distance_nan_station_lat.
  reflexivity.
Qed.

Lemma fold_pick_drop_nan_lat (label : string -> string) (lat_loc lon_loc : fl)
      (cs : list Geo.candidate) (st : Geo.scan_state) :
  fold_left (Geo.pick label lat_loc lon_loc)
            (filter (fun c => negb (isnan (Geo.lat c))) cs) st
  = fold_left (Geo.pick label lat_loc lon_loc) cs st.
Proof.
  revert st. induction cs as [| c cs IH]; intros st; [reflexivity |].
  cbn [filter fold_left]. destruct (isnan (Geo.lat c)) eqn:E; cbn [negb fold_left].
  - assert (Geo.lat c = NaN) as En by (destruct (Geo.lat c); try discriminate; reflexivity).
    rewrite (pick_nan_lat label lat_loc lon_loc st c En). apply IH.
  - apply IH.
Qed.

(** X7.  Rows after the first whose latitude is missing ([nan]) have no
    influence: deleting them from the table changes the result of
    neither finder. *)
Theorem finders_skip_rows_without_latitude (lat_loc lon_loc : fl)
        (c0 : Geo.candidate) (rest : list Geo.candidate) :
  Geo.asos_find lat_loc lon_loc
    (Geo.table_of (c0 :: filter (fun c => negb (isnan (Geo.lat c))) rest))
  = Geo.asos_find lat_loc lon_loc (Geo.table_of (c0 :: rest))
  /\ Geo.site_finder lat_loc lon_loc
       (Geo.table_of (c0 :: filter (fun c => negb (isnan (Geo.lat c))) rest))
     = Geo.site_finder lat_loc lon_loc (Geo.table_of (c0 :: rest)).
Proof.
  unfold Geo.asos_find, Geo.site_finder. rewrite !scan_table_of. cbn [tl].
  rewrite !fold_pick_drop_nan_lat. split; reflexivity.
Qed.

(* ================================================================== *)
(** * Further properties of the flux model *)
(* ================================================================== *)

Lemma div_nan_r (a : fl) : (a / NaN)%fl = NaN.
Proof. destruct a; reflexivity. Qed.

Section FluxMissing.

Import Qe.

Lemma rho_nan_temperature (p_air : fl) : rho NaN p_air = NaN.
Proof. unfold rho. cbn [mul]. rewrite div_nan_r. reflexivity. Qed.

Lemma r_st_nan_radiation (sm : fl) : r_st sm NaN = NaN.
Proof.
  unfold r_st. cbn [div np_tanh sub neg add].
  rewrite mul_nan_r, add_nan_r. reflexivity.
Qed.

Lemma q_nan_dewpoint (T_air p_air : fl) : fst (q T_air NaN p_air) = NaN.
Proof. reflexivity. Qed.

Lemma q_nan_temperature (T_dew p_air : fl) : snd (q NaN T_dew p_air) = NaN.
Proof. reflexivity. Qed.

(** The flux in terms of the components of the two calls of [q]. *)
Lemma lhf_unfold (T_lst T_air T_dew p_air r_av sm S_d LAI : fl) :
  lhf T_lst T_air T_dew p_air r_av sm S_d LAI
  = ((rho T_air p_air * (snd (q T_air T_dew p_air) - fst (q T_air T_dew p_air))
      / (r_av + r_c sm S_d LAI)
      + rho T_air p_air * (snd (q T_lst T_dew p_air) - fst (q T_air T_dew p_air))
        / (r_av + r_soil sm)) * L_v)%fl.
Proof. reflexivity. Qed.

End FluxMissing.

(** X8.  For inputs that are numpy scalars, a missing ([nan]) value in
    any of the eight inputs of [lhf] comes out as a missing flux. *)
Theorem lhf_missing_input_gives_missing_flux
        (T_lst T_air T_dew p_air r_av sm S_d LAI : fl) :
  T_lst = NaN \/ T_air = NaN \/ T_dew = NaN \/ p_air = NaN
  \/ r_av = NaN \/ sm = NaN \/ S_d = NaN \/ LAI = NaN ->
  Qe.lhf T_lst T_air T_dew p_air r_av sm S_d LAI = NaN.
Proof.
  intros H. rewrite lhf_unfold.
  destruct H as [-> | [-> | [-> | [-> | [-> | [-> | [-> | ->]]]]]]].
  - rewrite q_nan_temperature. cbn [sub neg add]. rewrite mul_nan_r.
    cbn [div]. rewrite add_nan_r. reflexivity.
  - rewrite rho_nan_temperature. reflexivity.
  - rewrite q_nan_dewpoint, sub_nan_r, mul_nan_r. reflexivity.
  - unfold Qe.rho. reflexivity.
  - cbn [add]. rewrite div_nan_r. reflexivity.
  - unfold Qe.r_c, Qe.r_st, Qe.c_sw. cbn [div add].
    rewrite add_nan_r, div_nan_r. reflexivity.
  - unfold Qe.r_c. rewrite r_st_nan_radiation. cbn [div].
    rewrite add_nan_r, div_nan_r. reflexivity.
  - unfold Qe.r_c. rewrite div_nan_r, add_nan_r, div_nan_r. reflexivity.
Qed.

(** X8 (witness): the scenario of the specification with the radiation
    missing. *)
Lemma lhf_missing_input_gives_missing_flux_witness :
  Qe.lhf (Fin 288.15) (Fin 288.15) (Fin 288.15) (Fin 1013.25)
         (Fin 50) (Fin 0.3) NaN (Fin 2) = NaN.
Proof.
  apply lhf_missing_input_gives_missing_flux.
  do 6 right. left. reflexivity.
Defined.

Lemma r_st_any_soil_moisture (x y : R) (S_d : fl) :
  x <> 0 -> y <> 0 -> Qe.r_st (Fin x) S_d = Qe.r_st (Fin y) S_d.
Proof.
  intros Hx Hy. unfold Qe.r_st.
  rewrite (c_sw_finite x Hx), (c_sw_finite y Hy). reflexivity.
Qed.

(** X9.  For a scalar soil moisture the flux does not depend on its
    value: any two finite non-zero soil moistures give the same flux,
    all other inputs being equal. *)
Theorem lhf_independent_of_soil_moisture
        (T_lst T_air T_dew p_air r_av S_d LAI : fl) (sm1 sm2 : R) :
  sm1 <> 0 -> sm2 <> 0 ->
  Qe.lhf T_lst T_air T_dew p_air r_av (Fin sm1) S_d LAI
  = Qe.lhf T_lst T_air T_dew p_air r_av (Fin sm2) S_d LAI.
Proof.
  intros H1 H2. rewrite !lhf_unfold. unfold Qe.r_c.
  rewrite (r_st_any_soil_moisture sm1 sm2 S_d H1 H2).
  rewrite (r_soil_finite sm1 H1), (r_soil_finite sm2 H2). reflexivity.
Qed.

(** X9 (witness): a dry and a wet soil in one scenario. *)
Lemma lhf_independent_of_soil_moisture_witness :
  Qe.lhf (Fin 300) (Fin 295) (Fin 285) (Fin 1013.25) (Fin 50) (Fin 0.05)
         (Fin 400) (Fin 2)
  = Qe.lhf (Fin 300) (Fin 295) (Fin 285) (Fin 1013.25) (Fin 50) (Fin 0.45)
           (Fin 400) (Fin 2).
Proof.
  apply (lhf_independent_of_soil_moisture (Fin 300) (Fin 295) (Fin 285)
           (Fin 1013.25) (Fin 50) (Fin 400) (Fin 2) 0.05 0.45); lra.
Defined.

(** ** Humidity and the sign of the flux *)

Section HumidityOrder.

Import Qe.

Lemma e_sat_formula (T : R) :
  29.65 < T ->
  e_sat T = 6.113 * exp (17.67 * (T - 273.15) / (T - 273.15 + 243.5)).
Proof.
  intros HT. unfold e_sat, vapor_pressure, e_0. fin_arith. reflexivity.
Qed.

Lemma e_sat_positive (T : R) : 29.65 < T -> 0 < e_sat T.
Proof.
  intros HT. rewrite (e_sat_formula T HT).
  pose proof (exp_pos (17.67 * (T - 273.15) / (T - 273.15 + 243.5))). lra.
Qed.

Lemma bolton_exponent_monotone (T1 T2 : R) :
  29.65 < T1 -> T1 <= T2 ->
  17.67 * (T1 - 273.15) / (T1 - 273.15 + 243.5)
  <= 17.67 * (T2 - 273.15) / (T2 - 273.15 + 243.5).
Proof.
  intros H1 H12.
  assert (0 < T1 - 273.15 + 243.5) as U1 by lra.
  assert (0 < T2 - 273.15 + 243.5) as U2 by lra.
  apply Rmult_le_reg_r with ((T1 - 273.15 + 243.5) * (T2 - 273.15 + 243.5));
    [apply Rmult_lt_0_compat; assumption |].
  replace (17.67 * (T1 - 273.15) / (T1 - 273.15 + 243.5)
           * ((T1 - 273.15 + 243.5) * (T2 - 273.15 + 243.5)))
    with (17.67 * (T1 - 273.15) * (T2 - 273.15 + 243.5)) by (field; lra).
  replace (17.67 * (T2 - 273.15) / (T2 - 273.15 + 243.5)
           * ((T1 - 273.15 + 243.5) * (T2 - 273.15 + 243.5)))
    with (17.67 * (T2 - 273.15) * (T1 - 273.15 + 243.5)) by (field; lra).
  nra.
Qed.

(** The vapor pressure grows with the temperature. *)
Lemma e_sat_monotone (T1 T2 : R) :
  29.65 < T1 -> T1 <= T2 -> e_sat T1 <= e_sat T2.
Proof.
  intros H1 H12. rewrite (e_sat_formula T1), (e_sat_formula T2) by lra.
  apply Rmult_le_compat_l; [lra |].
  destruct (bolton_exponent_monotone T1 T2 H1 H12) as [L | E].
  - left. apply exp_increasing. exact L.
  - right. rewrite E. reflexivity.
Qed.

(** Specific humidity as a function of the vapor pressure. *)
Lemma humidity_monotone (e1 e2 p : R) :
  0 < e1 -> e1 <= e2 -> 0.378 * e2 < p ->
  0 < 0.622 * e1 / (p - 0.378 * e1) <= 0.622 * e2 / (p - 0.378 * e2).
Proof.
  intros H1 H12 Hp.
  assert (0 < p - 0.378 * e1) as D1 by lra.
  assert (0 < p - 0.378 * e2) as D2 by lra.
  split.
  - apply Rdiv_lt_0_compat; lra.
  - apply Rmult_le_reg_r with ((p - 0.378 * e1) * (p - 0.378 * e2));
      [apply Rmult_lt_0_compat; assumption |].
    replace (0.622 * e1 / (p - 0.378 * e1) * ((p - 0.378 * e1) * (p - 0.378 * e2)))
      with (0.622 * e1 * (p - 0.378 * e2)) by (field; lra).
    replace (0.622 * e2 / (p - 0.378 * e2) * ((p - 0.378 * e1) * (p - 0.378 * e2)))
      with (0.622 * e2 * (p - 0.378 * e1)) by (field; lra).
    nra.
Qed.

Lemma q_finite (T_air T_dew p : R) :
  p - 0.378 * e_sat T_dew <> 0 -> p - 0.378 * e_sat T_air <> 0 ->
  q (Fin T_air) (Fin T_dew) (Fin p)
  = (Fin (0.622 * e_sat T_dew / (p - 0.378 * e_sat T_dew)),
     Fin (0.622 * e_sat T_air / (p - 0.378 * e_sat T_air))).
Proof.
  intros Hd Ha. rewrite q_vapor_pressure, !vapor_pressure_kelvin.
  fin_arith. reflexivity.
Qed.

End HumidityOrder.

Lemma e_sat_300_bound : Qe.e_sat 300 < 6.113 * 9.
Proof.
  rewrite e_sat_formula by lra.
  apply Rmult_lt_compat_l; [lra |].
  apply Rlt_le_trans with (exp (1 + 1)).
  - apply exp_increasing. lra.
  - rewrite exp_plus. pose proof exp_le_3. pose proof (exp_pos 1). nra.
Qed.

(* ================================================================== *)
(** * Further properties of the quality masking *)
(* ================================================================== *)

Lemma count_nan_zeros (n : nat) : Sd.count_nan (repeat (Fin 0) n) = 0%nat.
Proof. unfold Sd.count_nan. induction n as [| n IH]; [reflexivity | exact IH]. Qed.

(** X12.  The data returned by [s_d] has the shape of the extracted
    window, holds one element per pixel, and is never made of missing
    values only, unless the window is empty. *)
Theorem s_d_data_never_all_missing (data : Sd.array2) (dqf : list Z) :
  Sd.well_shaped data ->
  Sd.well_shaped (Sd.s_d_data data dqf)
  /\ Sd.shape0 (Sd.s_d_data data dqf) = Sd.shape0 data
  /\ Sd.shape1 (Sd.s_d_data data dqf) = Sd.shape1 data
  /\ (Sd.count_nan (Sd.items (Sd.s_d_data data dqf))
      <> (Sd.shape0 data * Sd.shape1 data)%nat
      \/ (Sd.shape0 data * Sd.shape1 data = 0)%nat).
Proof.
  intros Hshape. unfold Sd.well_shaped in *. unfold Sd.s_d_data.
  cbn [Sd.items Sd.shape0 Sd.shape1].
  destruct (Nat.eqb_spec (Sd.count_nan (Sd.mask_items (Sd.items data) dqf))
              (Sd.shape0 data * Sd.shape1 data)) as [E | N].
  - cbn [Sd.zeros Sd.items Sd.shape0 Sd.shape1].
    rewrite repeat_length, count_nan_zeros.
    repeat split. destruct (Sd.shape0 data * Sd.shape1 data)%nat; [right | left];
      auto.
  - cbn [Sd.items Sd.shape0 Sd.shape1]. rewrite mask_items_length.
    repeat split; auto.
Qed.

(** X12 (witness): a window of two pixels, both flagged. *)
Lemma s_d_data_never_all_missing_witness :
  Sd.well_shaped (Sd.s_d_data (Sd.Array2 1 2 [Fin 5; Fin 7]) [1%Z; 2%Z])
  /\ Sd.shape0 (Sd.s_d_data (Sd.Array2 1 2 [Fin 5; Fin 7]) [1%Z; 2%Z]) = 1%nat
  /\ Sd.shape1 (Sd.s_d_data (Sd.Array2 1 2 [Fin 5; Fin 7]) [1%Z; 2%Z]) = 2%nat
  /\ (Sd.count_nan (Sd.items (Sd.s_d_data (Sd.Array2 1 2 [Fin 5; Fin 7]) [1%Z; 2%Z]))
      <> (1 * 2)%nat
      \/ (1 * 2 = 0)%nat).
Proof.
  apply (s_d_data_never_all_missing (Sd.Array2 1 2 [Fin 5; Fin 7]) [1%Z; 2%Z]).
  reflexivity.
Defined.

(** X13.  While the window holds at least one pixel that is valid and not
    [nan], every pixel whose quality flag is 0 keeps its value. *)
Theorem s_d_data_keeps_valid_pixels (data : Sd.array2) (dqf : list Z)
        (k : nat) (v : fl) :
  Sd.well_shaped data ->
  nth_error (Sd.items data) k = Some v -> isnan v = false ->
  nth_error dqf k = Some 0%Z ->
  forall i w, nth_error (Sd.items data) i = Some w ->
              nth_error dqf i = Some 0%Z ->
              nth_error (Sd.items (Sd.s_d_data data dqf)) i = Some w.
Proof.
  intros Hshape Hk Hv Hfk i w Hi Hfi. unfold Sd.well_shaped in Hshape.
  unfold Sd.s_d_data. cbn [Sd.items Sd.shape0 Sd.shape1].
  destruct (Nat.eqb_spec (Sd.count_nan (Sd.mask_items (Sd.items data) dqf))
              (Sd.shape0 data * Sd.shape1 data)) as [E | _].
  - exfalso. rewrite <- Hshape, <- (mask_items_length (Sd.items data) dqf) in E.
    pose proof (count_nan_all _ E (Sd.mask_pixel v 0)) as Hnan.
    cbn in Hnan. rewrite Hnan in Hv; [discriminate |].
    apply (nth_error_In _ k). exact (mask_items_nth _ _ k v 0%Z Hk Hfk).
  - cbn [Sd.items]. rewrite (mask_items_nth _ _ i w 0%Z Hi Hfi). reflexivity.
Qed.

(** X13 (witness): two pixels, the second flagged; the first keeps 5. *)
Lemma s_d_data_keeps_valid_pixels_witness :
  nth_error (Sd.items (Sd.s_d_data (Sd.Array2 1 2 [Fin 5; Fin 7]) [0%Z; 2%Z])) 0
  = Some (Fin 5).
Proof.
  apply (s_d_data_keeps_valid_pixels (Sd.Array2 1 2 [Fin 5; Fin 7]) [0%Z; 2%Z]
           0%nat (Fin 5) eq_refl eq_refl eq_refl eq_refl 0%nat (Fin 5)
           eq_refl eq_refl).
Defined.

(* ================================================================== *)
(** * The extraction window of [s_d] *)
(* ================================================================== *)

Lemma py_slice_length {A : Type} (l : list A) (a b : nat) :
  List.length (SdWindow.py_slice l a b) = (Nat.min b (List.length l) - a)%nat.
Proof. unfold SdWindow.py_slice. rewrite length_firstn, length_skipn. lia. Qed.

Lemma py_slice_in {A : Type} (l : list A) (a b : nat) (x : A) :
  In x (SdWindow.py_slice l a b) -> In x l.
Proof.
  unfold SdWindow.py_slice. intros H.
  rewrite <- (firstn_skipn a l). apply in_or_app. right.
  rewrite <- (firstn_skipn (b - a) (skipn a l)). apply in_or_app. left. exact H.
Qed.

Lemma window_of_corners {A : Type} (grid : list (list A)) (row0 col0 row1 col1 : nat) :
  SdWindow.window grid (SdWindow.corner_indices row0 col0 row1 col1)
  = Returns (SdWindow.py_slice2 grid row1 row0 col0 col1).
Proof. reflexivity. Qed.

Lemma py_slice_nth {A : Type} (l : list A) (a b k : nat) :
  (k < Nat.min b (List.length l) - a)%nat ->
  nth_error (SdWindow.py_slice l a b) k = nth_error l (a + k).
Proof.
  intros Hk. unfold SdWindow.py_slice. rewrite nth_error_firstn.
  destruct (Nat.ltb_spec k (b - a)) as [_ | N]; [| lia].
  apply nth_error_skipn.
Qed.

(** X14.  With the corner nearest to [(domain[0], domain[2])] at
    [(row0, col0)] and the one nearest to [(domain[1], domain[3])] at
    [(row1, col1)], the window is the block of the grid made of the rows
    from [row1] up to, but without, [row0] and of the columns from
    [col0] up to, but without, [col1]: its element [(i, k)] is the
    element [(row1 + i, col0 + k)] of the grid.  Nothing is raised, and
    the window has no row at all when [row0 <= row1]. *)
Theorem s_d_window_extent {A : Type} (grid : list (list A))
        (row0 col0 row1 col1 : nat) :
  exists w : list (list A),
    SdWindow.window grid (SdWindow.corner_indices row0 col0 row1 col1) = Returns w
    /\ List.length w = (Nat.min row0 (List.length grid) - row1)%nat
    /\ (forall i, (i < List.length w)%nat ->
          exists src r,
            nth_error grid (row1 + i) = Some src /\ nth_error w i = Some r
            /\ List.length r = (Nat.min col1 (List.length src) - col0)%nat
            /\ forall k, (k < List.length r)%nat ->
                  nth_error r k = nth_error src (col0 + k))
    /\ ((row0 <= row1)%nat -> w = []).
Proof.
  exists (SdWindow.py_slice2 grid row1 row0 col0 col1).
  split; [apply window_of_corners |]. unfold SdWindow.py_slice2.
  split; [rewrite length_map; apply py_slice_length |].
  split.
  - intros i Hi. rewrite length_map, py_slice_length in Hi.
    assert (row1 + i < List.length grid)%nat as Hlt by lia.
    destruct (nth_error grid (row1 + i)) as [src |] eqn:Esrc;
      [| apply nth_error_None in Esrc; lia].
    exists src, (SdWindow.py_slice src col0 col1).
    split; [reflexivity |]. split.
    + rewrite nth_error_map, (py_slice_nth grid row1 row0 i Hi), Esrc. reflexivity.
    + split; [apply py_slice_length |].
      intros k Hk. rewrite py_slice_length in Hk. apply py_slice_nth. exact Hk.
  - intros Hle. unfold SdWindow.py_slice.
    replace (row0 - row1)%nat with 0%nat by lia. reflexivity.
Qed.

(* ================================================================== *)
(** * Further properties of the square truncation *)
(* ================================================================== *)

Lemma in_firstn {A : Type} (n : nat) (l : list A) (x : A) :
  In x (firstn n l) -> In x l.
Proof.
  intros H. rewrite <- (firstn_skipn n l). apply in_or_app. left. exact H.
Qed.

(** X15.  When the latitude axis is at least as long as the longitude
    axis, [main] keeps the first [len(lon)] latitudes and the matching
    rows of the data and leaves the longitudes alone: both axes come
    back with [len(lon)] entries. *)
Theorem main_square_latitude_longer {cell : Type} (arr : Smap.dataset cell) :
  (List.length (Smap.lon_axis arr) <= List.length (Smap.lat_axis arr))%nat ->
  List.length (Smap.data arr) = List.length (Smap.lat_axis arr) ->
  Smap.main_square arr
  = (firstn (List.length (Smap.lon_axis arr)) (Smap.lat_axis arr),
     Smap.lon_axis arr,
     firstn (List.length (Smap.lon_axis arr)) (Smap.data arr))
  /\ List.length (firstn (List.length (Smap.lon_axis arr)) (Smap.lat_axis arr))
     = List.length (Smap.lon_axis arr).
Proof.
  intros Hle Hdata. split; [| rewrite length_firstn; lia].
  unfold Smap.main_square.
  set (nlat := List.length (Smap.lat_axis arr)) in *.
  set (nlon := List.length (Smap.lon_axis arr)) in *.
  destruct (Z.gtb_spec (Z.of_nat nlat - Z.of_nat nlon) 0) as [G | G].
  - unfold Smap.py_slice_to.
    destruct (Z.ltb_spec (- (Z.of_nat nlat - Z.of_nat nlon)) 0) as [_ | L]; [| lia].
    rewrite Hdata. fold nlat.
    replace (Z.to_nat (Z.of_nat nlat + - (Z.of_nat nlat - Z.of_nat nlon)))
      with nlon by lia.
    reflexivity.
  - destruct (Z.ltb_spec (Z.of_nat nlat - Z.of_nat nlon) 0) as [L | _]; [lia |].
    assert (nlon = nlat) as E by lia.
    rewrite E. unfold nlat at 1. rewrite firstn_all.
    rewrite <- Hdata, firstn_all. reflexivity.
Qed.

(** X15 (witness): four latitudes and three longitudes. *)
Lemma main_square_latitude_longer_witness :
  Smap.main_square Smap.tall_grid
  = (firstn 3 (Smap.lat_axis Smap.tall_grid), Smap.lon_axis Smap.tall_grid,
     firstn 3 (Smap.data Smap.tall_grid))
  /\ List.length (firstn 3 (Smap.lat_axis Smap.tall_grid)) = 3%nat.
Proof.
  apply (main_square_latitude_longer Smap.tall_grid).
  - cbn. lia.
  - reflexivity.
Defined.

(** X16.  Whatever the lengths of the axes, the slices [main] returns
    stay consistent with one another: when the data had one row per
    latitude and one column per longitude, the returned data has one row
    per returned latitude and one column per returned longitude. *)
Theorem main_square_axes_match_data {cell : Type} (arr : Smap.dataset cell) :
  List.length (Smap.data arr) = List.length (Smap.lat_axis arr) ->
  (forall row, In row (Smap.data arr) ->
               List.length row = List.length (Smap.lon_axis arr)) ->
  let '(la, lo, d) := Smap.main_square arr in
  List.length d = List.length la
  /\ (forall row, In row d -> List.length row = List.length lo).
Proof.
  intros Hrows Hcols. unfold Smap.main_square.
  set (nlat := List.length (Smap.lat_axis arr)) in *.
  set (nlon := List.length (Smap.lon_axis arr)) in *.
  destruct (Z.gtb_spec (Z.of_nat nlat - Z.of_nat nlon) 0) as [G | G].
  - split.
    + rewrite !py_slice_to_length, Hrows. reflexivity.
    + intros row Hin. apply Hcols. unfold Smap.py_slice_to in Hin.
      destruct (_ <? 0)%Z; exact (in_firstn _ _ _ Hin).
  - destruct (Z.ltb_spec (Z.of_nat nlat - Z.of_nat nlon) 0) as [L | _].
    + split; [rewrite length_map; exact Hrows |].
      intros row Hin. apply in_map_iff in Hin as (src & <- & Hsrc).
      rewrite !py_slice_to_length, (Hcols src Hsrc). reflexivity.
    + split; [exact Hrows | exact Hcols].
Qed.

(** X16 (witness): three latitudes and four longitudes, the case in which
    the longitudes are cut to one. *)
Lemma main_square_axes_match_data_witness :
  let '(la, lo, d) := Smap.main_square Smap.wide_grid in
  List.length d = List.length la
  /\ (forall row, In row d -> List.length row = List.length lo).
Proof.
  apply (main_square_axes_match_data Smap.wide_grid).
  - reflexivity.
  - intros row [<- | [<- | [<- | []]]]; reflexivity.
Defined.

(* ================================================================== *)
(** * Further properties of the hourly alignment *)
(* ================================================================== *)

Lemma find_key_nodup {row : Type} (data : list (Z * row)) (t : Z) (r : row) :
  NoDup (map fst data) -> In (t, r) data ->
  find (fun s => (fst s =? t)%Z) data = Some (t, r).
Proof.
  induction data as [| a data IH]; intros Hnd Hin; [destruct Hin |].
  inversion Hnd as [| ? ? Hnotin Hnd']; subst.
  cbn [find]. destruct Hin as [-> | Hin].
  - cbn [fst]. rewrite Z.eqb_refl. reflexivity.
  - destruct (Z.eqb_spec (fst a) t) as [E | _]; [| exact (IH Hnd' Hin)].
    exfalso. apply Hnotin. rewrite E.
    apply in_map_iff. exists (t, r). auto.
Qed.



(* ================================================================== *)
(** * Potential temperature: [theta] *)
(* ================================================================== *)

Section ThetaFacts.

Import Theta.

Lemma max_float_large : 10 ^ 8 < max_float.
Proof.
  unfold max_float.
  assert (2 ^ 27 <= 2 ^ 1023) as Hpow by (apply Rle_pow; [lra | lia]).
  assert (0 < / 2 ^ 52 <= 1) as [Hi0 Hi1].
  { assert (1 <= 2 ^ 52) as H1 by (apply pow_R1_Rle; lra).
    split; [apply Rinv_0_lt_compat; lra |].
    rewrite <- Rinv_1. apply Rinv_le_contravar; lra. }
  assert (2 ^ 27 = 134217728) as E27 by (simpl; lra).
  assert (10 ^ 8 = 100000000) as E8 by (simpl; lra).
  rewrite E8. rewrite E27 in Hpow. nra.
Qed.

Lemma in_range_small (r : R) : Rabs r <= 10 ^ 8 -> in_range r = Ok (Fin r).
Proof.
  intros H. unfold in_range. pose proof max_float_large.
  destruct (Rlt_dec max_float (Rabs r)); [lra | reflexivity].
Qed.

(** The exponent [R / c_p] lies strictly between 0 and 1. *)
Lemma kappa_bounds : 0 < 287.05 / 1006 < 1.
Proof. split; lra. Qed.

Lemma kappa_not_integer : is_integer (287.05 / 1006) = false.
Proof.
  unfold is_integer.
  assert (Int_part (287.05 / 1006) = 0%Z) as E.
  { symmetry. apply Int_part_spec. pose proof kappa_bounds. cbn. lra. }
  unfold frac_part. rewrite E. cbn.
  destruct (Req_EM_T (287.05 / 1006 - 0) 0) as [Z | _]; [| reflexivity].
  pose proof kappa_bounds. lra.
Qed.

(** A positive base to a power between 0 and 1 stays below
    [max(1, base)]. *)
Lemma Rpower_fraction_bound (b e : R) :
  0 < b -> 0 < e < 1 -> 0 < Rpower b e <= Rmax 1 b.
Proof.
  intros Hb [He0 He1]. split; [unfold Rpower; apply exp_pos |].
  destruct (Rle_lt_dec 1 b) as [L | L].
  - rewrite Rmax_right by exact L.
    rewrite <- (Rpower_1 b Hb) at 2. apply Rle_Rpower; lra.
  - rewrite Rmax_left by lra. unfold Rpower.
    rewrite <- exp_0. left. apply exp_increasing.
    assert (ln b < 0) by (rewrite <- ln_1; apply ln_increasing; lra).
    nra.
Qed.

End ThetaFacts.

Section ThetaPow.

Import Theta.

Lemma pow_reference_ratio (p : R) :
  1 <= p ->
  math_pow (1000 / Fin p)%fl (Qe.R_gas / c_p)%fl
  = Ok (Fin (Rpower (1000 / p) (287.05 / 1006))).
Proof.
  intros Hp. unfold Qe.R_gas, c_p. fin_arith. unfold math_pow.
  pose proof kappa_bounds as [K0 K1].
  destruct (Req_EM_T (287.05 / 1006) 0) as [Z | _]; [lra |].
  assert (0 < 1000 / p) as Hb by (apply Rdiv_lt_0_compat; lra).
  destruct (Rlt_dec 0 (1000 / p)) as [_ | N]; [| contradiction].
  apply in_range_small.
  pose proof (Rpower_fraction_bound (1000 / p) (287.05 / 1006) Hb (conj K0 K1))
    as [P0 P1].
  rewrite Rabs_right by lra.
  apply Rle_trans with (Rmax 1 (1000 / p)); [exact P1 |].
  assert (1000 / p <= 1000).
  { apply Rmult_le_reg_r with p; [lra |].
    replace (1000 / p * p) with 1000 by (field; lra). nra. }
  assert (10 ^ 8 = 100000000) as E8 by (simpl; lra).
  rewrite E8. apply Rmax_lub; lra.
Qed.

Lemma pow_negative_ratio (p : R) :
  p < 0 ->
  math_pow (1000 / Fin p)%fl (Qe.R_gas / c_p)%fl = Error ValueError.
Proof.
  intros Hp. unfold Qe.R_gas, c_p. fin_arith. unfold math_pow.
  pose proof kappa_bounds as [K0 K1].
  destruct (Req_EM_T (287.05 / 1006) 0) as [Z | _]; [lra |].
  assert (1000 / p < 0) as Hb.
  { assert (/ p < 0) by (apply Rinv_lt_0_compat; lra). unfold Rdiv. nra. }
  destruct (Rlt_dec 0 (1000 / p)) as [L | _]; [lra |].
  destruct (Req_EM_T (1000 / p) 0) as [Z | _]; [lra |].
  rewrite kappa_not_integer. reflexivity.
Qed.

(** Above 35.45 K the power of ten in the virtual temperature is an
    ordinary number: the exponent stays below 7.5. *)
Lemma pow_ten_returns (T_dew : R) :
  35.45 < T_dew ->
  exists v : fl,
    math_pow (Fin 10) (7.5 * (Fin T_dew - 273.15) / (237.7 + (Fin T_dew - 273.15)))%fl
    = Ok v.
Proof.
  intros HT. fin_arith. unfold math_pow.
  set (x := 7.5 * (T_dew - 273.15) / (237.7 + (T_dew - 273.15))).
  destruct (Req_EM_T x 0) as [_ | _]; [eexists; reflexivity |].
  destruct (Rlt_dec 0 10) as [_ | N]; [| lra].
  exists (Fin (Rpower 10 x)). apply in_range_small.
  assert (x < 8) as Hx.
  { unfold x. apply Rmult_lt_reg_r with (237.7 + (T_dew - 273.15)); [lra |].
    replace (7.5 * (T_dew - 273.15) / (237.7 + (T_dew - 273.15))
             * (237.7 + (T_dew - 273.15)))
      with (7.5 * (T_dew - 273.15)) by (field; lra).
    lra. }
  assert (Rpower 10 x < Rpower 10 8) as Hlt by (apply Rpower_lt; lra).
  assert (Rpower 10 8 = 10 ^ 8) as E.
  { replace 8 with (INR 8) by (simpl; lra). apply Rpower_pow. lra. }
  assert (0 < Rpower 10 x) by (unfold Rpower; apply exp_pos).
  rewrite Rabs_right by lra. lra.
Qed.

End ThetaPow.

Lemma theta_value (T_air T_dew p : R) :
  35.45 < T_dew -> 1 <= p ->
  Theta.theta (Fin T_air) (Fin T_dew) (Fin p)
  = Theta.Ok (Fin (T_air * Rpower (1000 / p) (287.05 / 1006))).
Proof.
  intros HT Hp. unfold Theta.theta.
  rewrite (pow_reference_ratio p Hp). cbn [Theta.and_then].
  destruct (pow_ten_returns T_dew HT) as [v ->]. cbn [Theta.and_then].
  reflexivity.
Qed.

(** X18.  For an air temperature of magnitude at most 1e300, a dewpoint
    between 36 K and 373.15 K and a pressure between 500 hPa and 1e300
    hPa, [theta] raises nothing and returns the potential temperature
    [T_air * (1000 / p_air) ** (R / c_p)]; the dewpoint has no influence
    on the result. *)
Theorem theta_returns_potential_temperature (T_air T_dew p : R) :
  -1e300 <= T_air <= 1e300 -> 36 <= T_dew <= 373.15 -> 500 <= p <= 1e300 ->
  Theta.theta (Fin T_air) (Fin T_dew) (Fin p)
  = Theta.Ok (Fin (T_air * Rpower (1000 / p) (287.05 / 1006))).
Proof. intros _ HT Hp. apply theta_value; lra. Qed.

(** X18 (witness): 288.15 K, dewpoint 283.15 K, 900 hPa. *)
Lemma theta_returns_potential_temperature_witness :
  Theta.theta (Fin 288.15) (Fin 283.15) (Fin 900)
  = Theta.Ok (Fin (288.15 * Rpower (1000 / 900) (287.05 / 1006))).
Proof. apply (theta_returns_potential_temperature 288.15 283.15 900); lra. Defined.



(** X20.  For a negative pressure of magnitude at least 1e-300 [theta]
    fails: [math.pow] gets a negative base with the fractional exponent
    [R / c_p] and raises [ValueError], whatever the temperatures. *)
Theorem theta_negative_pressure_raises (T_air T_dew : fl) (p : R) :
  p <= -1e-300 ->
  Theta.theta T_air T_dew (Fin p) = Theta.Error Theta.ValueError.
Proof.
  intros Hp. unfold Theta.theta.
  rewrite (pow_negative_ratio p) by lra. reflexivity.
Qed.

(** X20 (witness): a pressure of -5 hPa. *)
Lemma theta_negative_pressure_raises_witness :
  Theta.theta (Fin 288.15) (Fin 283.15) (Fin (-5)) = Theta.Error Theta.ValueError.
Proof. apply (theta_negative_pressure_raises (Fin 288.15) (Fin 283.15) (-5)). lra. Defined.

(* ================================================================== *)
(** * The flux without leaves *)
(* ================================================================== *)

(** With a leaf area index of 0 the canopy resistance is infinite and
    the transpiration term vanishes. *)
Lemma lhf_without_leaves_core (T_lst T_air T_dew p r_av sm S_d : R) :
  T_air <> 0 -> sm <> 0 -> r_av + 437 <> 0 ->
  p - 0.378 * Qe.e_sat T_dew <> 0 ->
  p - 0.378 * Qe.e_sat T_air <> 0 ->
  p - 0.378 * Qe.e_sat T_lst <> 0 ->
  Qe.lhf (Fin T_lst) (Fin T_air) (Fin T_dew) (Fin p) (Fin r_av) (Fin sm)
         (Fin S_d) (Fin 0)
  = Fin (p * 100 / (287.05 * T_air)
         * (0.622 * Qe.e_sat T_lst / (p - 0.378 * Qe.e_sat T_lst)
            - 0.622 * Qe.e_sat T_dew / (p - 0.378 * Qe.e_sat T_dew))
         / (r_av + 437) * 2.5e6).
Proof.
  intros HT Hsm Hr Hd Ha Hl. rewrite lhf_unfold.
  rewrite (q_finite T_air T_dew p Hd Ha), (q_finite T_lst T_dew p Hd Hl).
  cbn [fst snd].
  rewrite (rho_finite T_air p HT).
  rewrite (r_c_no_leaves sm S_d Hsm), (r_soil_finite sm Hsm).
  unfold Qe.L_v. fin_arith. cbn [add div]. fin_arith.
  f_equal. lra.
Qed.


(* ================================================================== *)
(** * The hours selected by [main] of [grid/smap.py] *)
(* ================================================================== *)

(** X22.  For a date range that starts on or after the first of January
    2017 and ends inside the hourly series, [main] keeps one value per
    hour from the hour of the first date to the hour of the last date,
    both included: value [k] of the result is value
    [hour(first) + k] of the series. *)
Theorem smap_hour_slice {A : Type} (series : list A) (first_date last_date : Z) :
  (0 <= first_date <= last_date)%Z ->
  (SmapHours.hour_index last_date < Z.of_nat (List.length series))%Z ->
  Z.of_nat (List.length (SmapHours.hour_slice series first_date last_date))
  = (SmapHours.hour_index last_date - SmapHours.hour_index first_date + 1)%Z
  /\ forall k : nat,
       (k < List.length (SmapHours.hour_slice series first_date last_date))%nat ->
       nth_error (SmapHours.hour_slice series first_date last_date) k
       = nth_error series (Z.to_nat (SmapHours.hour_index first_date) + k).
Proof.
  intros [H0 H01] Hlast.
  unfold SmapHours.hour_slice, SmapHours.py_slice_z, SmapHours.hour_index in *.
  assert (0 <= first_date / 3600 <= last_date / 3600)%Z as [Ha Hab].
  { split; [apply Z.div_pos; lia | apply Z.div_le_mono; lia]. }
  unfold SmapHours.py_bound.
  destruct (Z.ltb_spec (first_date / 3600) 0) as [L | _]; [lia |].
  destruct (Z.ltb_spec (last_date / 3600 + 1) 0) as [L | _]; [lia |].
  rewrite !Z.min_l by lia.
  split.
  - rewrite length_firstn, length_skipn. lia.
  - intros k Hk. rewrite length_firstn, length_skipn in Hk.
    rewrite nth_error_firstn.
    destruct (Nat.ltb_spec k (Z.to_nat (last_date / 3600 + 1 - first_date / 3600)))
      as [_ | N]; [| lia].
    apply nth_error_skipn.
Qed.

(** X22 (witness): five hourly values, from 01:30 to 03:10 of the first
    of January 2017. *)
Lemma smap_hour_slice_witness :
  Z.of_nat (List.length (SmapHours.hour_slice [10; 11; 12; 13; 14]%nat 5400 11400))
  = (SmapHours.hour_index 11400 - SmapHours.hour_index 5400 + 1)%Z
  /\ forall k : nat,
       (k < List.length (SmapHours.hour_slice [10; 11; 12; 13; 14]%nat 5400 11400))%nat ->
       nth_error (SmapHours.hour_slice [10; 11; 12; 13; 14]%nat 5400 11400) k
       = nth_error [10; 11; 12; 13; 14]%nat (Z.to_nat (SmapHours.hour_index 5400) + k).
Proof.
  apply (smap_hour_slice [10; 11; 12; 13; 14]%nat 5400 11400).
  - lia.
  - vm_compute. reflexivity.
Defined.

(* ================================================================== *)
(** * The search for a stored file *)
(* ================================================================== *)

Section FileSearchFacts.

Import FileSearch.

Variable strptime : name -> result Z.

(** X23.  When the search of [smap.py] returns, it either reports a file
    of the listing that ends in [.nc] and whose dates cover the range,
    and reads from it, or it reports that no file exists, keeps the
    generated path, and then every [.nc] file of the listing has dates
    that do not cover the range. *)
Theorem smap_search_sound (listing : list name) (first_date last_date : Z)
        (fpath fname : name) (found : bool) (p f : name) :
  smap_search strptime listing first_date last_date fpath fname = Done (found, p, f) ->
  (found = true ->
     In p listing /\ endswith p dot_nc = true /\ f = p
     /\ exists fdate, file_dates strptime p = Done fdate
                      /\ covers fdate first_date last_date = true)
  /\ (found = false ->
        p = fpath
        /\ forall g, In g listing -> endswith g dot_nc = true ->
             exists fdate, file_dates strptime g = Done fdate
                           /\ covers fdate first_date last_date = false).
Proof.
  revert fname. induction listing as [| entry rest IH]; intros fname H.
  - cbn in H. injection H as <- <- <-. split; [discriminate |].
    intros _. split; [reflexivity | intros g []].
  - cbn [smap_search] in H. destruct (endswith entry dot_nc) eqn:Ee.
    + destruct (file_dates strptime entry) as [fdate |] eqn:Ed;
        cbn [and_then] in H; [| discriminate].
      destruct (covers fdate first_date last_date) eqn:Ec.
      * injection H as <- <- <-. split; [| discriminate].
        intros _. repeat split; try (left; reflexivity); try assumption.
        exists fdate. auto.
      * destruct (IH entry H) as [Ht Hf]. split.
        -- intros Hfound. destruct (Ht Hfound) as (Hin & rest').
           split; [right; exact Hin | exact rest'].
        -- intros Hfound. destruct (Hf Hfound) as (Hp & Hall).
           split; [exact Hp |]. intros g [<- | Hg] Hnc; [| exact (Hall g Hg Hnc)].
           exists fdate. auto.
    + destruct (IH entry H) as [Ht Hf]. split.
      * intros Hfound. destruct (Ht Hfound) as (Hin & rest').
        split; [right; exact Hin | exact rest'].
      * intros Hfound. destruct (Hf Hfound) as (Hp & Hall).
        split; [exact Hp |]. intros g [<- | Hg] Hnc; [| exact (Hall g Hg Hnc)].
        rewrite Ee in Hnc. discriminate.
Qed.

End FileSearchFacts.

(** X23 (witness): a text file and a stored file of the year 2017, for
    the first two days of March 2017. *)
Lemma smap_search_sound_witness :
  (true = true ->
     In FileNames.file_2017 [FileNames.file_text; FileNames.file_2017]
     /\ FileSearch.endswith FileNames.file_2017 FileSearch.dot_nc = true
     /\ FileNames.file_2017 = FileNames.file_2017
     /\ exists fdate,
          FileSearch.file_dates FileNames.strptime_digits FileNames.file_2017
          = FileSearch.Done fdate
          /\ FileSearch.covers fdate 20170301 20170302 = true)
  /\ (true = false ->
        FileNames.file_2017 = FileNames.file_new
        /\ forall g, In g [FileNames.file_text; FileNames.file_2017] ->
             FileSearch.endswith g FileSearch.dot_nc = true ->
             exists fdate,
               FileSearch.file_dates FileNames.strptime_digits g = FileSearch.Done fdate
               /\ FileSearch.covers fdate 20170301 20170302 = false).
Proof.
  apply (smap_search_sound FileNames.strptime_digits
           [FileNames.file_text; FileNames.file_2017] 20170301 20170302
           FileNames.file_new FileNames.file_new true
           FileNames.file_2017 FileNames.file_2017).
  vm_compute. reflexivity.
Defined.

Lemma last_cons_default {A : Type} (x : A) (l : list A) (d d' : A) :
  last (x :: l) d = last (x :: l) d'.
Proof.
  revert x. induction l as [| y l IH]; intros x; [reflexivity |].
  change (last (x :: y :: l) d) with (last (y :: l) d).
  change (last (x :: y :: l) d') with (last (y :: l) d').
  apply IH.
Qed.

(** X24.  When the search of [smap.py] finds no stored file, the name
    under which the new dataset is written is the last entry of the
    directory listing, whatever it is, and the generated name only when
    the directory is empty: the loop variable has taken the place of the
    generated name. *)
Theorem smap_write_name_is_last_entry (strptime : FileSearch.name -> FileSearch.result Z)
        (listing : list FileSearch.name) (first_date last_date : Z)
        (generated : FileSearch.name) (st : bool * FileSearch.name * FileSearch.name) :
  FileSearch.smap_search strptime listing first_date last_date generated generated
  = FileSearch.Done st ->
  fst (fst st) = false ->
  FileSearch.smap_write_name st = last listing generated.
Proof.
  intros H Hfound.
  assert (forall fpath fname,
             FileSearch.smap_search strptime listing first_date last_date fpath fname
             = FileSearch.Done st ->
             FileSearch.smap_write_name st = last listing fname) as Hgen.
  { clear H. induction listing as [| entry rest IH]; intros fpath fname H.
    - cbn in H. injection H as <-. reflexivity.
    - assert (last (entry :: rest) fname = last rest entry) as ->.
      { destruct rest as [| x r]; [reflexivity |].
        change (last (entry :: x :: r) fname) with (last (x :: r) fname).
        apply last_cons_default. }
      cbn [FileSearch.smap_search] in H.
      destruct (FileSearch.endswith entry FileSearch.dot_nc).
      + destruct (FileSearch.file_dates strptime entry) as [fdate |];
          cbn [FileSearch.and_then] in H; [| discriminate].
        destruct (FileSearch.covers fdate first_date last_date).
        * injection H as <-. cbn in Hfound. discriminate.
        * exact (IH fpath entry H).
      + exact (IH fpath entry H). }
  exact (Hgen generated generated H).
Qed.

(** X24 (witness): the directory holds a stored file of 2017 and a text
    file; for two days of March 2018 nothing is found and the write goes
    to the text file. *)
Lemma smap_write_name_is_last_entry_witness :
  FileSearch.smap_write_name (false, FileNames.file_new, FileNames.file_text)
  = last [FileNames.file_2017; FileNames.file_text] FileNames.file_new.
Proof.
  apply (smap_write_name_is_last_entry FileNames.strptime_digits
           [FileNames.file_2017; FileNames.file_text] 20180301 20180302
           FileNames.file_new (false, FileNames.file_new, FileNames.file_text)).
  - vm_compute. reflexivity.
  - reflexivity.
Defined.

Lemma lai_search_first_nc (strptime : FileSearch.name -> FileSearch.result Z)
      (pre post : list FileSearch.name) (file : FileSearch.name)
      (first_date last_date : Z) (generated : FileSearch.name) :
  (forall g, In g pre -> FileSearch.endswith g FileSearch.dot_nc = false) ->
  FileSearch.endswith file FileSearch.dot_nc = true ->
  FileSearch.lai_search strptime (pre ++ file :: post) first_date last_date generated
  = FileSearch.and_then (FileSearch.file_dates strptime file)
      (fun fdate => if FileSearch.covers fdate first_date last_date
                    then FileSearch.Done (true, file)
                    else FileSearch.Done (false, generated)).
Proof.
  intros Hpre Hfile. induction pre as [| g pre IH].
  - cbn [app FileSearch.lai_search]. rewrite Hfile. reflexivity.
  - cbn [app FileSearch.lai_search]. rewrite (Hpre g (or_introl eq_refl)).
    apply IH. intros h Hh. apply Hpre. right. exact Hh.
Qed.

(** X25.  The search of [lai.py] looks at the first [.nc] file of the
    listing only: whatever follows it, the result is that of the listing
    reduced to this one file, so a later file that covers the range is
    not found. *)
Theorem lai_search_only_first_nc (strptime : FileSearch.name -> FileSearch.result Z)
        (pre post : list FileSearch.name) (file : FileSearch.name)
        (first_date last_date : Z) (generated : FileSearch.name) :
  (forall g, In g pre -> FileSearch.endswith g FileSearch.dot_nc = false) ->
  FileSearch.endswith file FileSearch.dot_nc = true ->
  FileSearch.lai_search strptime (pre ++ file :: post) first_date last_date generated
  = FileSearch.lai_search strptime [file] first_date last_date generated.
Proof.
  intros Hpre Hfile.
  rewrite (lai_search_first_nc strptime pre post file first_date last_date
             generated Hpre Hfile).
  symmetry.
  apply (lai_search_first_nc strptime [] [] file first_date last_date generated);
    [intros g [] | exact Hfile].
Qed.

(** X25 (witness): a text file, the stored file of 2017, then the stored
    file of 2018. *)
Lemma lai_search_only_first_nc_witness :
  FileSearch.lai_search FileNames.strptime_digits
    ([FileNames.file_text] ++ FileNames.file_2017 :: [FileNames.file_2018])
    20180301 20180302 FileNames.file_new
  = FileSearch.lai_search FileNames.strptime_digits [FileNames.file_2017]
      20180301 20180302 FileNames.file_new.
Proof.
  apply (lai_search_only_first_nc FileNames.strptime_digits
           [FileNames.file_text] [FileNames.file_2018] FileNames.file_2017).
  - intros g [<- | []]. vm_compute. reflexivity.
  - vm_compute. reflexivity.
Defined.

Lemma split_without_separator (sep : ascii) (s : FileSearch.name) :
  ~ In sep s -> FileSearch.split sep s = [s].
Proof.
  induction s as [| c s IH]; intros Hn; [reflexivity |].
  cbn [FileSearch.split]. destruct (Ascii.eqb_spec c sep) as [E | _].
  - exfalso. apply Hn. left. exact E.
  - rewrite IH; [reflexivity |]. intros Hin. apply Hn. right. exact Hin.
Qed.

(** X26.  A [.nc] file whose name, once the extension is removed, holds
    no underscore stops both searches with [IndexError] as soon as it is
    reached: its name has no last-but-one part. *)
Theorem search_fails_on_name_without_underscore
        (strptime : FileSearch.name -> FileSearch.result Z)
        (pre post : list FileSearch.name) (file : FileSearch.name)
        (first_date last_date : Z) (generated : FileSearch.name) :
  (forall g, In g pre -> FileSearch.endswith g FileSearch.dot_nc = false) ->
  FileSearch.endswith file FileSearch.dot_nc = true ->
  ~ In FileSearch.underscore (FileSearch.splitext_root file) ->
  FileSearch.smap_search strptime (pre ++ file :: post) first_date last_date
    generated generated = FileSearch.Failed FileSearch.Index_error
  /\ FileSearch.lai_search strptime (pre ++ file :: post) first_date last_date
       generated = FileSearch.Failed FileSearch.Index_error.
Proof.
  intros Hpre Hfile Hno.
  assert (FileSearch.file_dates strptime file = FileSearch.Failed FileSearch.Index_error)
    as Hdates.
  { unfold FileSearch.file_dates.
    rewrite (split_without_separator _ _ Hno). reflexivity. }
  split.
  - generalize generated at 2. induction pre as [| g pre IH]; intros fname.
    + cbn [app FileSearch.smap_search]. rewrite Hfile, Hdates. reflexivity.
    + cbn [app FileSearch.smap_search]. rewrite (Hpre g (or_introl eq_refl)).
      apply IH. intros h Hh. apply Hpre. right. exact Hh.
  - rewrite (lai_search_first_nc strptime pre post file first_date
               last_date generated Hpre Hfile).
    rewrite Hdates. reflexivity.
Qed.

(** X26 (witness): a text file, then [notes.nc], then a stored file. *)
Lemma search_fails_on_name_without_underscore_witness :
  FileSearch.smap_search FileNames.strptime_digits
    ([FileNames.file_text] ++ FileNames.file_plain :: [FileNames.file_2017])
    20170301 20170302 FileNames.file_new FileNames.file_new
  = FileSearch.Failed FileSearch.Index_error
  /\ FileSearch.lai_search FileNames.strptime_digits
       ([FileNames.file_text] ++ FileNames.file_plain :: [FileNames.file_2017])
       20170301 20170302 FileNames.file_new
     = FileSearch.Failed FileSearch.Index_error.
Proof.
  apply (search_fails_on_name_without_underscore FileNames.strptime_digits
           [FileNames.file_text] [FileNames.file_2017] FileNames.file_plain).
  - intros g [<- | []]. vm_compute. reflexivity.
  - vm_compute. reflexivity.
  - vm_compute. intros H.
    repeat (destruct H as [H | H]; [discriminate H |]). exact H.
Defined.

(* ================================================================== *)
(** * The bounding box of [reader] *)
(* ================================================================== *)

Section BoxFacts.

Import SmapReader.

Lemma select_in {A : Type} (mask : list bool) (l : list A) (x : A) :
  In x (select mask l) -> In x l.
Proof.
  revert l. induction mask as [| m mask IH]; intros [| y l] H;
    try (destruct H; fail).
  cbn [select] in H. destruct m.
  - destruct H as [<- | H]; [left; reflexivity | right; exact (IH l H)].
  - right. exact (IH l H).
Qed.

Lemma select_nth {A : Type} (mask : list bool) (l : list A) (j : nat) (x : A) :
  nth_error mask j = Some true -> nth_error l j = Some x ->
  In x (select mask l).
Proof.
  revert l j. induction mask as [| m mask IH]; intros [| y l] [| j] Hm Hl;
    try discriminate.
  - cbn in Hm, Hl. injection Hm as ->. injection Hl as ->. left. reflexivity.
  - cbn in Hm, Hl. cbn [select]. destruct m; [right |]; exact (IH l j Hm Hl).
Qed.

End BoxFacts.

(** X27.  Every value [reader] keeps of a pass is [nan] or the value of a
    grid point whose latitude and longitude lie inside the bounding box,
    bounds included: nothing from outside the box is kept. *)
Theorem temp_in_box_provenance (bb : fl * fl * fl * fl)
        (grid : list (list SmapReader.point)) (row : list fl) (v : fl) :
  In row (SmapReader.temp_in_box bb grid) -> In v row ->
  isnan v = true
  \/ exists la lo grid_row,
       In grid_row grid /\ In (la, lo, v) grid_row
       /\ SmapReader.in_box bb la lo = true.
Proof.
  unfold SmapReader.temp_in_box, SmapReader.drop_nan. intros Hrow Hv.
  apply in_map_iff in Hrow as (r & <- & Hr).
  apply select_in in Hr. apply select_in in Hv.
  apply in_map_iff in Hr as (grid_row & <- & Hg).
  apply in_map_iff in Hv as ([[la lo] w] & Hw & Hpt).
  cbn [SmapReader.where_in_box] in Hw.
  destruct (SmapReader.in_box bb la lo) eqn:Ebox.
  - subst w. right. exists la, lo, grid_row. auto.
  - subst v. left. reflexivity.
Qed.

Lemma temp_in_box_single :
  SmapReader.temp_in_box (SmapReader.bound_box (Fin 0) (Fin 0) (Fin 0.25))
                         [[(Fin 0, Fin 0, Fin 5)]]
  = [[Fin 5]].
Proof.
  unfold SmapReader.temp_in_box, SmapReader.bound_box. fin_arith.
  cbn [map SmapReader.where_in_box SmapReader.in_box].
  unfold SmapReader.le, SmapReader.ge. cbn [isnan negb andb].
  rewrite !ltb_fin_false by lra. reflexivity.
Qed.

(** X27 (witness): one grid point at the centre of the box. *)
Lemma temp_in_box_provenance_witness :
  isnan (Fin 5) = true
  \/ exists la lo grid_row,
       In grid_row [[(Fin 0, Fin 0, Fin 5)]] /\ In (la, lo, Fin 5) grid_row
       /\ SmapReader.in_box (SmapReader.bound_box (Fin 0) (Fin 0) (Fin 0.25)) la lo
          = true.
Proof.
  apply (temp_in_box_provenance
           (SmapReader.bound_box (Fin 0) (Fin 0) (Fin 0.25))
           [[(Fin 0, Fin 0, Fin 5)]] [Fin 5] (Fin 5)).
  - rewrite temp_in_box_single. left. reflexivity.
  - left. reflexivity.
Defined.

Section DropNanFacts.

Import SmapReader.

Lemma select_row_mask (a b : list (list fl)) (r : list fl) :
  In r (select (map (fun row => negb (forallb isnan row)) b) b) ->
  In r b /\ forallb isnan r = false.
Proof.
  induction b as [| y b IH]; intros H; [destruct H |].
  cbn [map select] in H. destruct (forallb isnan y) eqn:Ey; cbn [negb] in H.
  - destruct (IH H) as [Hin Hr]. split; [right; exact Hin | exact Hr].
  - destruct H as [<- | H]; [split; [left; reflexivity | exact Ey] |].
    destruct (IH H) as [Hin Hr]. split; [right; exact Hin | exact Hr].
Qed.

Lemma not_all_nan_position (r : list fl) :
  forallb isnan r = false ->
  exists j x, nth_error r j = Some x /\ isnan x = false.
Proof.
  induction r as [| y r IH]; intros H; [discriminate |].
  cbn [forallb] in H. destruct (isnan y) eqn:Ey.
  - destruct (IH H) as (j & x & Hj & Hx). exists (S j), x. auto.
  - exists 0%nat, y. auto.
Qed.

End DropNanFacts.

(** X28.  On a rectangular array, what is left after the rows and the
    columns made of [nan] only have been removed has no row made of
    [nan] only: every remaining row holds a value. *)
Theorem drop_nan_rows_hold_values (a : list (list fl)) (row : list fl) :
  (forall r, In r a -> List.length r = List.length (hd [] a)) ->
  In row (SmapReader.drop_nan a) ->
  exists x, In x row /\ isnan x = false.
Proof.
  intros Hrect Hrow. unfold SmapReader.drop_nan in Hrow.
  apply in_map_iff in Hrow as (r & <- & Hr).
  unfold SmapReader.row_mask in Hr.
  apply (select_row_mask a) in Hr as [Hin Hnan].
  destruct (not_all_nan_position r Hnan) as (j & x & Hj & Hx).
  exists x. split; [| exact Hx].
  apply (select_nth _ _ j x); [| exact Hj].
  assert (j < List.length (hd [] a))%nat as Hlt.
  { rewrite <- (Hrect r Hin). apply nth_error_Some. rewrite Hj. discriminate. }
  unfold SmapReader.col_mask.
  rewrite nth_error_map, nth_error_seq.
  destruct (Nat.ltb_spec j (List.length (hd [] a))) as [_ | N]; [| lia].
  cbn [option_map Nat.add]. f_equal.
  destruct (forallb (fun row => isnan (nth j row NaN)) a) eqn:Eall; [| reflexivity].
  exfalso. rewrite forallb_forall in Eall. specialize (Eall r Hin).
  rewrite (nth_error_nth r j NaN Hj) in Eall. rewrite Eall in Hx. discriminate.
Qed.

(** X28 (witness): a first column and a second row of [nan] around one
    value. *)
Lemma drop_nan_rows_hold_values_witness :
  exists x, In x [Fin 5] /\ isnan x = false.
Proof.
  apply (drop_nan_rows_hold_values [[NaN; Fin 5]; [NaN; NaN]] [Fin 5]).
  - intros r [<- | [<- | []]]; reflexivity.
  - left. reflexivity.
Defined.

(* ================================================================== *)
(** * Equality of the two humidities at the dewpoint *)
(* ================================================================== *)

Lemma eqb_same (a : fl) : isnan a = false -> NpCompare.eqb a a = true.
Proof.
  destruct a as [x | | |]; intros H; try reflexivity; [| discriminate].
  cbn. destruct (Req_EM_T x x); [reflexivity | contradiction].
Qed.

Lemma e_sat_not_negative (T : R) : 0 <= Qe.e_sat T.
Proof.
  unfold Qe.e_sat, Qe.vapor_pressure, Qe.e_0. rewrite sub_fin.
  destruct (Req_EM_T (T - 273.15 + 243.5) 0) as [E | N].
  - rewrite mul_fin, add_fin.
    assert ((Fin (17.67 * (T - 273.15)) / Fin (T - 273.15 + 243.5))%fl = NInf) as ->.
    { unfold div, signed_inf.
      destruct (Req_EM_T (T - 273.15 + 243.5) 0) as [_ | N]; [| contradiction].
      destruct (Req_EM_T (17.67 * (T - 273.15)) 0) as [Z | _]; [lra |].
      destruct (Rlt_dec 0 (17.67 * (T - 273.15))) as [L | _]; [lra | reflexivity]. }
    cbn. lra.
  - fin_arith. cbn [fin_val].
    pose proof (exp_pos (17.67 * (T - 273.15) / (T - 273.15 + 243.5))). lra.
Qed.

Lemma humidity_not_nan (e : R) (p : fl) :
  0 <= e -> isnan p = false -> p <> Fin 0 ->
  isnan (0.622 * Fin e / (p - 0.378 * Fin e))%fl = false.
Proof.
  intros He Hp Hp0. fin_arith. destruct p as [x | | |]; try discriminate.
  - rewrite sub_fin. unfold div.
    destruct (Req_EM_T (x - 0.378 * e) 0) as [Z | _]; [| reflexivity].
    unfold signed_inf.
    destruct (Req_EM_T (0.622 * e) 0) as [Z0 | _].
    + exfalso. apply Hp0. f_equal. lra.
    + destruct (Rlt_dec 0 (0.622 * e)); reflexivity.
  - reflexivity.
  - reflexivity.
Qed.




(* ================================================================== *)
(** * The flux at coinciding temperatures *)
(* ================================================================== *)

(** C6 (amended).  When surface temperature, air temperature and dewpoint
    are one temperature [T] between 30 K and 1e300 K, the pressure lies
    between 1e-300 and 1e300 hPa and is at least [0.4 * e(T)],
    aerodynamic resistance, soil moisture and leaf area index are
    positive and the radiation is finite, [lhf] returns exactly 0. *)
Theorem lhf_zero_when_temperatures_coincide (T p r_av sm S_d LAI : R) :
  30 <= T <= 1e300 -> 1e-300 <= p <= 1e300 -> 0.4 * Qe.e_sat T <= p ->
  0 < r_av -> 0 < sm -> 0 < LAI ->
  Qe.lhf (Fin T) (Fin T) (Fin T) (Fin p) (Fin r_av) (Fin sm) (Fin S_d) (Fin LAI)
  = Fin 0.
Proof.
  intros HT Hp He Hr Hsm Hlai.
  pose proof (e_sat_not_negative T) as H0.
  apply lhf_zero_core; try assumption; lra.
Qed.

(** C6 (witness): the scenario of the specification. *)
Lemma lhf_zero_when_temperatures_coincide_witness :
  Qe.lhf (Fin 288.15) (Fin 288.15) (Fin 288.15) (Fin 1013.25)
         (Fin 50) (Fin 0.3) (Fin 0) (Fin 2) = Fin 0.
Proof.
  pose proof e_sat_scenario_bound.
  apply (lhf_zero_when_temperatures_coincide 288.15 1013.25 50 0.3 0 2); lra.
Defined.

(* ================================================================== *)
(** * The flux without leaves, in the range of the floats *)
(* ================================================================== *)

(** X21.  With a leaf area index of 0 the canopy resistance is infinite
    and the transpiration term vanishes: for temperatures between 30 K
    and 1e300 K, a pressure between 1e-300 and 1e300 hPa that is at
    least [0.4 * e] at each temperature, an aerodynamic resistance that
    is not negative, a finite non-zero soil moisture and a finite
    radiation, [lhf] returns the finite soil evaporation term
    [rho * (q_sat_g - q_a) / (r_av + 437) * L_v]. *)
Theorem lhf_without_leaves (T_lst T_air T_dew p r_av sm S_d : R) :
  30 <= T_lst <= 1e300 -> 30 <= T_air <= 1e300 -> 30 <= T_dew <= 1e300 ->
  1e-300 <= p <= 1e300 ->
  0.4 * Qe.e_sat T_lst <= p -> 0.4 * Qe.e_sat T_air <= p ->
  0.4 * Qe.e_sat T_dew <= p ->
  0 <= r_av <= 1e300 -> sm <> 0 ->
  Qe.lhf (Fin T_lst) (Fin T_air) (Fin T_dew) (Fin p) (Fin r_av) (Fin sm)
         (Fin S_d) (Fin 0)
  = Fin (p * 100 / (287.05 * T_air)
         * (0.622 * Qe.e_sat T_lst / (p - 0.378 * Qe.e_sat T_lst)
            - 0.622 * Qe.e_sat T_dew / (p - 0.378 * Qe.e_sat T_dew))
         / (r_av + 437) * 2.5e6).
Proof.
  intros Hl Ha Hd Hp Hel Hea Hed Hr Hsm.
  pose proof (e_sat_not_negative T_lst). pose proof (e_sat_not_negative T_air).
  pose proof (e_sat_not_negative T_dew).
  apply lhf_without_leaves_core; try assumption; lra.
Qed.

(** X21 (witness): surface 300 K, air 295 K, dewpoint 285 K. *)
Lemma lhf_without_leaves_witness :
  Qe.lhf (Fin 300) (Fin 295) (Fin 285) (Fin 1013.25) (Fin 50) (Fin 0.3)
         (Fin 400) (Fin 0)
  = Fin (1013.25 * 100 / (287.05 * 295)
         * (0.622 * Qe.e_sat 300 / (1013.25 - 0.378 * Qe.e_sat 300)
            - 0.622 * Qe.e_sat 285 / (1013.25 - 0.378 * Qe.e_sat 285))
         / (50 + 437) * 2.5e6).
Proof.
  pose proof e_sat_300_bound as B300.
  pose proof (e_sat_monotone 295 300 ltac:(lra) ltac:(lra)) as B295.
  pose proof (e_sat_monotone 285 300 ltac:(lra) ltac:(lra)) as B285.
  apply (lhf_without_leaves 300 295 285 1013.25 50 0.3 400); lra.
Defined.

(* ================================================================== *)
(** * The row a finder selects, for any distance computation *)
(* ================================================================== *)

Section LtbFacts.

Lemma ltb_irrefl (a : fl) : (a <? a)%fl = false.
Proof.
  destruct a as [x | | |]; try reflexivity.
  cbn. destruct (Rlt_dec x x); [lra | reflexivity].
Qed.

Lemma ltb_trans (a b c : fl) :
  (a <? b)%fl = true -> (b <? c)%fl = true -> (a <? c)%fl = true.
Proof.
  destruct a as [x | | |], b as [y | | |], c as [z | | |]; cbn;
    try discriminate; try reflexivity.
  destruct (Rlt_dec x y), (Rlt_dec y z), (Rlt_dec x z);
    try discriminate; try reflexivity; lra.
Qed.

(** What is not below a bound is above everything below that bound,
    unless it is [nan]. *)
Lemma ltb_below_bound (a b c : fl) :
  (a <? b)%fl = true -> (c <? b)%fl = false -> isnan c = false ->
  (a <? c)%fl = true.
Proof.
  destruct a as [x | | |], b as [y | | |], c as [z | | |]; cbn;
    try discriminate; try reflexivity.
  destruct (Rlt_dec x y), (Rlt_dec z y), (Rlt_dec x z);
    try discriminate; try reflexivity; lra.
Qed.

End LtbFacts.

Section ScanWithFacts.

Import Geo GeoScan.

Variable dist : fl -> fl -> fl -> fl -> fl.
Variable label : string -> string.
Variables lat_loc lon_loc : fl.

Local Abbreviation rd := (row_dist dist lat_loc lon_loc).
Local Abbreviation choose := (GeoScan.choose dist lat_loc lon_loc).

(** With [Geo.distance] for the distance the scan is [Geo.scan]. *)
Lemma scan_with_distance (t : table) :
  scan_with distance label lat_loc lon_loc t = scan label lat_loc lon_loc t.
Proof. reflexivity. Qed.

Lemma scan_body_with_row (pre : list candidate) (c : candidate)
      (post : list candidate) (d : fl) (o : option candidate) :
  scan_body_with dist label lat_loc lon_loc (table_of (pre ++ c :: post))
                 (d, answer label o) (List.length pre)
  = Returns (fst (choose (d, o) c), answer label (snd (choose (d, o) c))).
Proof.
  unfold scan_body_with, table_of. cbn [lat_asos lon_asos stations].
  rewrite !py_index_map_middle. cbn [bind fst].
  unfold GeoScan.choose, row_dist. cbn [fst].
  destruct (dist lat_loc lon_loc (lat c) (lon c) <? d)%fl; reflexivity.
Qed.

Lemma for_each_scan_body_with (cs pre : list candidate) (d : fl)
      (o : option candidate) :
  for_each (scan_body_with dist label lat_loc lon_loc (table_of (pre ++ cs)))
           (seq (List.length pre) (List.length cs)) (d, answer label o)
  = Returns (fst (fold_left choose cs (d, o)),
             answer label (snd (fold_left choose cs (d, o)))).
Proof.
  revert pre d o. induction cs as [| c cs IH]; intros pre d o.
  - reflexivity.
  - cbn [List.length seq for_each fold_left].
    rewrite scan_body_with_row. cbn [bind].
    specialize (IH (pre ++ [c]) (fst (choose (d, o) c)) (snd (choose (d, o) c))).
    rewrite <- app_assoc in IH. cbn [app] in IH.
    rewrite length_app in IH. cbn [List.length] in IH.
    rewrite Nat.add_1_r in IH. rewrite IH.
    rewrite <- surjective_pairing. reflexivity.
Qed.

(** A finder returns the answer for the row the loop has selected. *)
Lemma scan_with_selected (cs : list candidate) :
  scan_with dist label lat_loc lon_loc (table_of cs)
  = Returns (answer label (selected_row dist lat_loc lon_loc cs)).
Proof.
  unfold scan_with, py_range, selected_row, compared_rows.
  destruct cs as [| c0 rest].
  - reflexivity.
  - replace (List.length (lat_asos (table_of (c0 :: rest))))
      with (S (List.length rest))
      by (cbn [table_of lat_asos map List.length]; now rewrite length_map).
    rewrite Nat.sub_succ, Nat.sub_0_r. cbn [tl].
    pose proof (for_each_scan_body_with rest [c0] (fst scan_init) None) as H.
    cbn [app List.length answer] in H.
    change (fst scan_init, EmptyString) with scan_init in H.
    rewrite H. reflexivity.
Qed.

End ScanWithFacts.

Section SelectionFacts.

Import Geo GeoScan.

Variable dist : fl -> fl -> fl -> fl -> fl.
Variables lat_loc lon_loc : fl.

Local Abbreviation rd := (row_dist dist lat_loc lon_loc).
Local Abbreviation choose := (GeoScan.choose dist lat_loc lon_loc).

(** Invariant of the loop: no row seen so far is below the running
    minimum; the running minimum is the initial bound while nothing is
    selected, and otherwise the distance of the selected row, which is
    below the initial bound and below every earlier row that has a
    distance. *)
Lemma fold_choose_invariant (d0 : fl) (cs : list candidate) :
  (forall c', In c' cs ->
              (rd c' <? fst (fold_left choose cs (d0, None)))%fl = false)
  /\ match snd (fold_left choose cs (d0, None)) with
     | None => fst (fold_left choose cs (d0, None)) = d0
     | Some c =>
         fst (fold_left choose cs (d0, None)) = rd c
         /\ (rd c <? d0)%fl = true
         /\ exists pre post,
              cs = pre ++ c :: post
              /\ forall c', In c' pre ->
                   isnan (rd c') = true \/ (rd c <? rd c')%fl = true
     end.
Proof.
  induction cs as [| x cs IH] using rev_ind.
  - split; [intros c' [] | reflexivity].
  - rewrite fold_left_app. cbn [fold_left].
    destruct (fold_left choose cs (d0, None)) as [d o] eqn:Est.
    cbn [fst snd] in IH. destruct IH as [HA HB].
    assert (choose (d, o) x
            = if (rd x <? d)%fl then (rd x, Some x) else (d, o)) as ->
      by reflexivity.
    destruct (rd x <? d)%fl eqn:Ex; cbn [fst snd].
    + split.
      * intros c' Hin. apply in_app_or in Hin as [Hin | [<- | []]];
          [| apply ltb_irrefl].
        destruct (rd c' <? rd x)%fl eqn:E; [| reflexivity].
        rewrite <- (HA c' Hin). symmetry. exact (ltb_trans _ _ _ E Ex).
      * split; [reflexivity |]. split.
        -- destruct o as [c |].
           ++ destruct HB as (-> & Hc & _). exact (ltb_trans _ _ _ Ex Hc).
           ++ subst d. exact Ex.
        -- exists cs, []. split; [reflexivity |].
           intros c' Hin. destruct (isnan (rd c')) eqn:En; [left; reflexivity |].
           right. exact (ltb_below_bound _ _ _ Ex (HA c' Hin) En).
    + split.
      * intros c' Hin. apply in_app_or in Hin as [Hin | [<- | []]];
          [exact (HA c' Hin) | exact Ex].
      * destruct o as [c |]; [| exact HB].
        destruct HB as (Hd & Hc & pre & post & Ecs & Hpre).
        split; [exact Hd |]. split; [exact Hc |].
        exists pre, (post ++ [x]). split; [| exact Hpre].
        rewrite Ecs, <- app_assoc. reflexivity.
Qed.

End SelectionFacts.

Lemma selected_row_spec (dist : fl -> fl -> fl -> fl -> fl)
      (lat_loc lon_loc : fl) (cs : list Geo.candidate) :
  match GeoScan.selected_row dist lat_loc lon_loc cs with
  | None =>
      forall c', In c' (GeoScan.compared_rows cs) ->
        (GeoScan.row_dist dist lat_loc lon_loc c' <? fst Geo.scan_init)%fl = false
  | Some c =>
      (GeoScan.row_dist dist lat_loc lon_loc c <? fst Geo.scan_init)%fl = true
      /\ (forall c', In c' (GeoScan.compared_rows cs) ->
            (GeoScan.row_dist dist lat_loc lon_loc c'
             <? GeoScan.row_dist dist lat_loc lon_loc c)%fl = false)
      /\ exists pre post,
           GeoScan.compared_rows cs = pre ++ c :: post
           /\ forall c', In c' pre ->
                isnan (GeoScan.row_dist dist lat_loc lon_loc c') = true
                \/ (GeoScan.row_dist dist lat_loc lon_loc c
                    <? GeoScan.row_dist dist lat_loc lon_loc c')%fl = true
  end.
Proof.
  unfold GeoScan.selected_row.
  pose proof (fold_choose_invariant dist lat_loc lon_loc (fst Geo.scan_init)
                (GeoScan.compared_rows cs)) as [HA HB].
  destruct (snd (fold_left (GeoScan.choose dist lat_loc lon_loc)
                           (GeoScan.compared_rows cs) (fst Geo.scan_init, None)))
    as [c |].
  - destruct HB as (Hd & Hc & Hpre). rewrite Hd in HA. auto.
  - rewrite HB in HA. exact HA.
Qed.

Lemma prepend_K_differs (c : string) : String "K" c <> c.
Proof.
  induction c as [| a c IH]; [discriminate |].
  intros [= Ha Hc]. apply IH. rewrite <- Ha in Hc. exact Hc.
Qed.

(** C10 (amended).  Whatever the distance computation, the query and the
    candidate list, [asos_find] returns the empty string when the loop
    selects no row, and otherwise the letter K followed by the code of
    the selected row, which therefore differs from that row's own code.
    The selected row is one of the compared rows, its distance is below
    the initial bound, and no compared row is strictly nearer.  The same
    holds of [Geo.asos_find], the finder with [Geo.distance]. *)
Theorem asos_find_returns_K_of_selected_row
        (dist : fl -> fl -> fl -> fl -> fl) (lat_loc lon_loc : fl)
        (cs : list Geo.candidate) :
  GeoScan.asos_find_with dist lat_loc lon_loc (Geo.table_of cs)
  = Returns (GeoScan.answer (String "K")
               (GeoScan.selected_row dist lat_loc lon_loc cs))
  /\ Geo.asos_find lat_loc lon_loc (Geo.table_of cs)
     = Returns (GeoScan.answer (String "K")
                  (GeoScan.selected_row Geo.distance lat_loc lon_loc cs))
  /\ match GeoScan.selected_row dist lat_loc lon_loc cs with
     | None =>
         GeoScan.answer (String "K") None = EmptyString
         /\ forall c', In c' (GeoScan.compared_rows cs) ->
              (GeoScan.row_dist dist lat_loc lon_loc c' <? fst Geo.scan_init)%fl
              = false
     | Some c =>
         GeoScan.answer (String "K") (Some c) = String "K" (Geo.code c)
         /\ String "K" (Geo.code c) <> Geo.code c
         /\ In c (GeoScan.compared_rows cs)
         /\ (GeoScan.row_dist dist lat_loc lon_loc c <? fst Geo.scan_init)%fl = true
         /\ forall c', In c' (GeoScan.compared_rows cs) ->
              (GeoScan.row_dist dist lat_loc lon_loc c'
               <? GeoScan.row_dist dist lat_loc lon_loc c)%fl = false
     end.
Proof.
  split; [| split].
  - apply scan_with_selected.
  - unfold Geo.asos_find.
    rewrite <- (scan_with_distance (fun c => String "K" c)).
    apply scan_with_selected.
  - pose proof (selected_row_spec dist lat_loc lon_loc cs) as H.
    destruct (GeoScan.selected_row dist lat_loc lon_loc cs) as [c |].
    + destruct H as (Hlt & Hmin & pre & post & E & _).
      repeat split; try assumption.
      * apply prepend_K_differs.
      * rewrite E. apply in_or_app. right. left. reflexivity.
    + split; [reflexivity | exact H].
Qed.

(** X5.  Whatever the distance computation: when some compared row has
    a distance below the initial bound, both finders return the code
    (with K in front for [asos_find]) of one compared row; no compared
    row is strictly nearer than it, and every compared row before it has
    a missing distance or is strictly farther, so that among equally
    near rows the earliest is returned. *)
Theorem finders_return_nearest_compared_row
        (dist : fl -> fl -> fl -> fl -> fl) (lat_loc lon_loc : fl)
        (cs : list Geo.candidate) :
  (exists c0, In c0 (GeoScan.compared_rows cs)
     /\ (GeoScan.row_dist dist lat_loc lon_loc c0 <? fst Geo.scan_init)%fl = true) ->
  exists pre c post,
    GeoScan.compared_rows cs = pre ++ c :: post
    /\ GeoScan.site_finder_with dist lat_loc lon_loc (Geo.table_of cs)
       = Returns (Geo.code c)
    /\ GeoScan.asos_find_with dist lat_loc lon_loc (Geo.table_of cs)
       = Returns (String "K" (Geo.code c))
    /\ (GeoScan.row_dist dist lat_loc lon_loc c <? fst Geo.scan_init)%fl = true
    /\ (forall c', In c' (GeoScan.compared_rows cs) ->
          (GeoScan.row_dist dist lat_loc lon_loc c'
           <? GeoScan.row_dist dist lat_loc lon_loc c)%fl = false)
    /\ (forall c', In c' pre ->
          isnan (GeoScan.row_dist dist lat_loc lon_loc c') = true
          \/ (GeoScan.row_dist dist lat_loc lon_loc c
              <? GeoScan.row_dist dist lat_loc lon_loc c')%fl = true).
Proof.
  intros (c0 & Hin & Hlt0).
  unfold GeoScan.site_finder_with, GeoScan.asos_find_with.
  rewrite !scan_with_selected.
  pose proof (selected_row_spec dist lat_loc lon_loc cs) as H.
  destruct (GeoScan.selected_row dist lat_loc lon_loc cs) as [c |].
  - destruct H as (Hlt & Hmin & pre & post & E & Hpre).
    exists pre, c, post. repeat split; assumption.
  - rewrite (H c0 Hin) in Hlt0. discriminate.
Qed.

(** X5 (witness): the rows ALB, B, A, KJFK with [Geo.distance] and the
    query at A; B is compared and lies below the initial bound. *)
Lemma finders_return_nearest_compared_row_witness :
  exists pre c post,
    GeoScan.compared_rows GeoScan.four_rows = pre ++ c :: post
    /\ GeoScan.site_finder_with Geo.distance (Fin 0) (Fin 0)
         (Geo.table_of GeoScan.four_rows)
       = Returns (Geo.code c)
    /\ GeoScan.asos_find_with Geo.distance (Fin 0) (Fin 0)
         (Geo.table_of GeoScan.four_rows)
       = Returns (String "K" (Geo.code c))
    /\ (GeoScan.row_dist Geo.distance (Fin 0) (Fin 0) c <? fst Geo.scan_init)%fl
       = true
    /\ (forall c', In c' (GeoScan.compared_rows GeoScan.four_rows) ->
          (GeoScan.row_dist Geo.distance (Fin 0) (Fin 0) c'
           <? GeoScan.row_dist Geo.distance (Fin 0) (Fin 0) c)%fl = false)
    /\ (forall c', In c' pre ->
          isnan (GeoScan.row_dist Geo.distance (Fin 0) (Fin 0) c') = true
          \/ (GeoScan.row_dist Geo.distance (Fin 0) (Fin 0) c
              <? GeoScan.row_dist Geo.distance (Fin 0) (Fin 0) c')%fl = true).
Proof.
  apply (finders_return_nearest_compared_row Geo.distance (Fin 0) (Fin 0)
           GeoScan.four_rows).
  exists Geo.station_B. split.
  - left. reflexivity.
  - change (GeoScan.row_dist Geo.distance (Fin 0) (Fin 0) Geo.station_B)
      with (Geo.dist_to (Fin 0) (Fin 0) Geo.station_B).
    rewrite dist_to_station_B. apply half_circumference_lt_init.
Defined.

(** On a window of a day, and on one of an hour and a second, the
    quotient computed in doubles gives the number of periods of the
    exact one. *)
Lemma periods_double_short_windows :
  Reader.periods_double (Reader.one_day + Reader.hour - 0)
  = Reader.periods (Reader.one_day + Reader.hour - 0)
  /\ Reader.periods_double (Reader.hour_and_second + Reader.hour - 0)
     = Reader.periods (Reader.hour_and_second + Reader.hour - 0).
Proof. split; vm_compute; reflexivity. Qed.

(** On the rows ALB, B, A, KJFK and the query at A the scan first takes
    B, then A, which is nearer, and leaves KJFK, which is farther: the
    selected row has a compared row before it and one after it. *)
Lemma finders_on_four_rows :
  GeoScan.compared_rows GeoScan.four_rows
  = [Geo.station_B] ++ Geo.station_A :: [Geo.station_KJFK]
  /\ GeoScan.site_finder_with Geo.distance (Fin 0) (Fin 0)
       (Geo.table_of GeoScan.four_rows)
     = Returns (Geo.code Geo.station_A)
  /\ GeoScan.asos_find_with Geo.distance (Fin 0) (Fin 0)
       (Geo.table_of GeoScan.four_rows)
     = Returns (String "K" (Geo.code Geo.station_A)).
Proof.
  split; [reflexivity |].
  assert (GeoScan.selected_row Geo.distance (Fin 0) (Fin 0) GeoScan.four_rows
          = Some Geo.station_A) as Hsel.
  { unfold GeoScan.selected_row, GeoScan.four_rows, GeoScan.compared_rows.
    cbn [tl fold_left]. unfold GeoScan.choose at 3.
    change (GeoScan.row_dist Geo.distance (Fin 0) (Fin 0) Geo.station_B)
      with (Geo.dist_to (Fin 0) (Fin 0) Geo.station_B).
    rewrite dist_to_station_B. cbn [fst].
    rewrite half_circumference_lt_init.
    unfold GeoScan.choose at 2.
    change (GeoScan.row_dist Geo.distance (Fin 0) (Fin 0) Geo.station_A)
      with (Geo.dist_to (Fin 0) (Fin 0) Geo.station_A).
    rewrite dist_to_station_A. cbn [fst].
    rewrite ltb_fin_true by (pose proof PI_RGT_0; nra).
    unfold GeoScan.choose.
    change (GeoScan.row_dist Geo.distance (Fin 0) (Fin 0) Geo.station_KJFK)
      with (Geo.dist_to (Fin 0) (Fin 0) Geo.station_B).
    rewrite dist_to_station_B. cbn [fst].
    rewrite ltb_fin_false by (pose proof PI_RGT_0; nra).
    reflexivity. }
  unfold GeoScan.site_finder_with, GeoScan.asos_find_with.
  rewrite !scan_with_selected, Hsel. split; reflexivity.
Qed.
